(** * boss: the systemd proxy hooks (systemd.go)

    A shallow embedding of the three hook actions of [systemd.go] and of
    the helpers they call: [monitorTask], [trySendSignal], [reconnect],
    [isUnavailable], [setupNetworking], [cleanupPreviousTask] and
    [getConfig].

    The hooks talk to collaborators that live outside the repository (the
    containerd client, the network provisioner, the service register, the
    logger).  Every call to a collaborator is recorded, with its outcome,
    in a history; what a collaborator answers is given by an environment
    [Env] that may look at the whole history so far, so that a theorem
    quantified over [Env] speaks about every behaviour of the
    collaborators. *)

From Stdlib Require Import ZArith List String Bool Lia.
Import ListNotations.
Local Open Scope string_scope.
Local Open Scope list_scope.
Local Open Scope Z_scope.

(** ** Errors *)

(** A non-nil Go [error].  The two flags are what the two classifiers of
    containerd's errdefs package answer on the value:
    [unavailable] is [errdefs.IsUnavailable(errdefs.FromGRPC(e))] and
    [not_found] is [errdefs.IsNotFound(e)].  A Go value of type [error]
    is an [option error], [None] being [nil]. *)
Record error : Type := Err {
  message : string;
  unavailable : bool;
  not_found : bool
}.

Definition errors_New (msg : string) : error := Err msg false false.

Definition errUnableToSignal : error := errors_New "unable to signal task".

(** [func isUnavailable(err error) bool]; on [nil] both [FromGRPC] and
    [IsUnavailable] answer [nil] and [false]. *)
Definition isUnavailable (err : option error) : bool :=
  match err with
  | None => false
  | Some e => unavailable e
  end.

Definition IsNotFound (err : option error) : bool :=
  match err with
  | None => false
  | Some e => not_found e
  end.

(** ** Data passed around by the hooks *)

(** [containerd.ExitStatus]: [ExitCode()] is a uint32, [Error()] an error. *)
Record ExitStatus : Type := mkExit {
  ExitCode : Z;
  Error : option error
}.

(** [config.Service] is declared outside the files at hand; only its
    identity matters to the hooks, which pass it on to the register. *)
Record Service : Type := mkService {
  Port : Z;
  Labels : list string
}.

(** The two fields of [config.Container] that the hooks read.  [Services]
    is a Go map; the list gives the order in which [range] walks it. *)
Record Container : Type := mkContainer {
  Network : string;
  Services : list (string * Service)
}.

(** What [typeurl.UnmarshalAny] hands back: the type assertion of
    [getConfig] to a pointer to [config.Container] panics on anything
    else. *)
Inductive any : Type :=
| AnyContainer (c : Container)
| AnyOther.

(** ** History of a hook process *)

(** One entry per call to a collaborator, with the outcome of the call,
    and one per value received by the [select] of [monitorTask]. *)
Inductive event : Type :=
| LoadContainer (id : string) (r : option error)
| ContainerInfo (r : option error)
| UnmarshalAny (r : any + error)
| NewTask (r : option error)
| NetworkCreate (network : string) (r : string + error)
| Register (id name ip : string) (srv : Service) (r : option error)
| TaskLookup (r : option error)
| TaskWait (r : option error)
| TaskStart (r : option error)
| TaskKill (s : Z) (r : option error)
| TaskDelete (r : option error)
| Sleep (ms : Z)
| ClientReconnect (r : option error)
| DisableMaintainance (id : string) (r : option error)
| EnableMaintainance (id reason : string) (r : option error)
| LogError (msg : string) (e : error)
| LogDebug (msg : string)
| RecvStarted (r : option error)
| RecvSignal (s : Z)
| RecvWait (exit : ExitStatus).

(** The history is kept newest first. *)
Definition history : Type := list event.

(** The collaborators: each field answers one kind of call, given the
    history at the time of the call. *)
Record Env : Type := mkEnv {
  client_LoadContainer : history -> string -> option error;
  container_Info : history -> option error;
  typeurl_UnmarshalAny : history -> any + error;
  container_NewTask : history -> option error;
  network_Create : history -> string -> string + error;
  register_Register :
    history -> string -> string -> string -> Service -> option error;
  container_Task : history -> option error;
  task_Wait : history -> option error;
  task_Start : history -> option error;
  task_Kill : history -> Z -> option error;
  task_Delete : history -> option error;
  client_Reconnect : history -> option error;
  register_DisableMaintainance : history -> string -> option error;
  register_EnableMaintainance : history -> string -> string -> option error
}.

(** ** A state monad over the history *)

Definition M (A : Type) : Type := history -> A * history.

Definition ret {A : Type} (a : A) : M A := fun h => (a, h).

Definition bind {A B : Type} (m : M A) (k : A -> M B) : M B :=
  fun h => let (a, h') := m h in k a h'.

Definition emit (e : event) : M unit := fun h => (tt, e :: h).

(** A call whose outcome [r] is read off the history and recorded by [ev]. *)
Definition call {R : Type} (answer : history -> R) (ev : R -> event) : M R :=
  fun h => let r := answer h in (r, ev r :: h).

Declare Scope hook_scope.
Delimit Scope hook_scope with hook.
Notation "x <- m ;; k" := (bind m (fun x => k))
  (at level 61, m at next level, right associativity) : hook_scope.
Notation "m ;;; k" := (bind m (fun _ => k))
  (at level 61, right associativity) : hook_scope.
Local Open Scope hook_scope.

(** [logrus.WithError(err).Error(msg)] *)
Definition logError (msg : string) (e : error) : M unit := emit (LogError msg e).

(** ** Counting over histories *)

Definition is_TaskKill (e : event) : bool :=
  match e with TaskKill _ _ => true | _ => false end.
Definition is_ClientReconnect (e : event) : bool :=
  match e with ClientReconnect _ => true | _ => false end.
Definition is_Sleep (e : event) : bool :=
  match e with Sleep _ => true | _ => false end.
Definition is_TaskDelete (e : event) : bool :=
  match e with TaskDelete _ => true | _ => false end.
Definition is_DisableMaintainance (e : event) : bool :=
  match e with DisableMaintainance _ _ => true | _ => false end.

Definition count (p : event -> bool) (h : history) : nat :=
  List.length (List.filter p h).

Section Hooks.

Variable env : Env.

(** ** reconnect *)

(** [for i := 0; i < 20; i++], with [n] the iterations left and [err]
    the named result, overwritten by every [client.Reconnect()]. *)
Fixpoint reconnect_loop (n : nat) (err : option error) : M (option error) :=
  match n with
  | O => ret err
  | S n' =>
      emit (Sleep 100) ;;;
      err <- call (client_Reconnect env) ClientReconnect ;;
      match err with
      | None => ret None
      | Some _ => reconnect_loop n' err
      end
  end.

Definition reconnect : M (option error) := reconnect_loop 20 None.

(** ** trySendSignal *)

(** [for i := 0; i < 5; i++], with [n] the iterations left. *)
Fixpoint trySendSignal_loop (n : nat) (s : Z) : M (option error) :=
  match n with
  | O => ret (Some errUnableToSignal)
  | S n' =>
      err <- call (fun h => task_Kill env h s) (TaskKill s) ;;
      match err with
      | None => ret None
      | Some e =>
          if negb (isUnavailable err) then ret (Some e)
          else
            err <- reconnect ;;
            match err with
            | Some e' => ret (Some e')
            | None => trySendSignal_loop n' s
            end
      end
  end.

Definition trySendSignal (s : Z) : M (option error) := trySendSignal_loop 5 s.

(** ** monitorTask *)

(** The channel [started], of capacity one, written once by the goroutine
    that runs [task.Start]. *)
Inductive started_chan : Type :=
| NotSent
| Buffered (r : option error)
| Drained.

(** What happens next in the process while [monitorTask] sits in its
    loop: the goroutine runs [started <- task.Start(ctx)], or the [select]
    receives from one of its three channels.  [SelSignal] and [SelWait]
    carry the value the outside world delivers.  A step that cannot happen
    (the goroutine has run already, [started] holds nothing) is skipped. *)
Inductive step : Type :=
| RunStart
| SelStarted
| SelSignal (s : Z)
| SelWait (exit : ExitStatus).

Definition schedule : Type := list step.

(** The [for { select { ... } }] loop.  [err] is the variable declared by
    [wait, err := task.Wait(ctx)] in the function body: the [started] and
    [signals] cases shadow it, the [wait] case reads it in
    [isUnavailable(err)] and in [return -1, err], and assigns it in
    [wait, err = task.Wait(ctx)].  [None] is returned when the schedule
    ends with the loop still in its [select].  The history of a run ends
    when the loop returns: what the goroutine would still do after that
    (a [task.Start] not issued yet) is not part of it. *)
Fixpoint monitorTask_loop (id : string) (err : option error)
    (started : started_chan) (sched : schedule) : M (option (Z * option error)) :=
  match sched with
  | [] => ret None
  | RunStart :: sched' =>
      match started with
      | NotSent =>
          r <- call (task_Start env) TaskStart ;;
          monitorTask_loop id err (Buffered r) sched'
      | _ => monitorTask_loop id err started sched'
      end
  | SelStarted :: sched' =>
      match started with
      | Buffered r =>
          emit (RecvStarted r) ;;;
          match r with
          | Some e => ret (Some (-1, Some e))
          | None =>
              derr <- call (fun h => register_DisableMaintainance env h id)
                           (DisableMaintainance id) ;;
              match derr with
              | Some e => logError "disable service maintenance" e
              | None => ret tt
              end ;;;
              monitorTask_loop id err Drained sched'
          end
      | _ => monitorTask_loop id err started sched'
      end
  | SelSignal s :: sched' =>
      emit (RecvSignal s) ;;;
      serr <- trySendSignal s ;;
      match serr with
      | Some e => logError "signal task" e
      | None => ret tt
      end ;;;
      monitorTask_loop id err started sched'
  | SelWait exit :: sched' =>
      emit (RecvWait exit) ;;;
      match Error exit with
      | Some _ =>
          if negb (isUnavailable err) then ret (Some (-1, err))
          else
            rerr <- reconnect ;;
            match rerr with
            | Some e => ret (Some (-1, Some e))
            | None =>
                werr <- call (task_Wait env) TaskWait ;;
                match werr with
                | Some e => ret (Some (-1, Some e))
                | None => monitorTask_loop id werr started sched'
                end
            end
      | None => ret (Some (ExitCode exit, None))
      end
  end.

(** The body of [monitorTask] below its [defer]. *)
Definition monitorTask_body (id : string) (sched : schedule)
    : M (option (Z * option error)) :=
  err <- call (task_Wait env) TaskWait ;;
  match err with
  | Some e => ret (Some (-1, Some e))
  | None => monitorTask_loop id err NotSent sched
  end.

(** [defer task.Delete(ctx, containerd.WithProcessKill)] runs when the
    body returns, and what it returns is dropped. *)
Definition monitorTask (id : string) (sched : schedule)
    : M (option (Z * option error)) :=
  r <- monitorTask_body id sched ;;
  match r with
  | None => ret None
  | Some res =>
      call (task_Delete env) TaskDelete ;;;
      ret (Some res)
  end.

(** ** setupNetworking *)

(** [for name, srv := range c.Services] *)
Fixpoint register_services (id ip : string) (srvs : list (string * Service))
    : M unit :=
  match srvs with
  | [] => ret tt
  | (name, srv) :: srvs' =>
      err <- call (fun h => register_Register env h id name ip srv)
                  (Register id name ip srv) ;;
      match err with
      | Some e => logError "register service" e
      | None => ret tt
      end ;;;
      register_services id ip srvs'
  end.

Definition setupNetworking (id : string) (c : Container) : M (option error) :=
  r <- call (fun h => network_Create env h (Network c))
            (NetworkCreate (Network c)) ;;
  match r with
  | inr e => ret (Some e)
  | inl ip =>
      if String.eqb ip "" then ret None
      else
        emit (LogDebug "setup network interface") ;;;
        register_services id ip (Services c) ;;;
        ret None
  end.

(** ** getConfig *)

Inductive config_result : Type :=
| ConfigOk (c : Container)
| ConfigErr (e : error)
| ConfigPanic.

Definition getConfig : M config_result :=
  err <- call (container_Info env) ContainerInfo ;;
  match err with
  | Some e => ret (ConfigErr e)
  | None =>
      v <- call (typeurl_UnmarshalAny env) UnmarshalAny ;;
      match v with
      | inr e => ret (ConfigErr e)
      | inl (AnyContainer c) => ret (ConfigOk c)
      | inl AnyOther => ret ConfigPanic
      end
  end.

(** ** cleanupPreviousTask *)

Definition cleanupPreviousTask (id : string) : M (option error) :=
  err <- call (fun h => client_LoadContainer env h id) (LoadContainer id) ;;
  match err with
  | Some e => ret (Some e)
  | None =>
      err <- call (container_Task env) TaskLookup ;;
      match err with
      | Some e => if IsNotFound err then ret None else ret (Some e)
      | None => call (task_Delete env) TaskDelete
      end
  end.

(** ** The hook actions *)

(** How the action of a hook ends: it returns an error value to the
    command-line framework, calls [os.Exit], panics, or (the start hook
    only) is still in the loop of [monitorTask] when the schedule ends. *)
Inductive hook_result : Type :=
| Return (err : option error)
| Exit (status : Z)
| Panic
| Waiting.

(** [systemdExecStartPostCommand.Action] *)
Definition systemdExecStartPostCommand (id : string) : M hook_result :=
  err <- cleanupPreviousTask id ;;
  merr <- call (fun h => register_EnableMaintainance env h id "task exited")
               (EnableMaintainance id "task exited") ;;
  match err with
  | None => ret (Return merr)
  | Some _ => ret (Return err)
  end.

(** [systemdExecStartCommand.Action]; the task of a container carries the
    container's id. *)
Definition systemdExecStartCommand (id : string) (sched : schedule)
    : M hook_result :=
  err <- call (fun h => client_LoadContainer env h id) (LoadContainer id) ;;
  match err with
  | Some e => ret (Return (Some e))
  | None =>
      config <- getConfig ;;
      match config with
      | ConfigErr e => ret (Return (Some e))
      | ConfigPanic => ret Panic
      | ConfigOk config =>
          err <- call (container_NewTask env) NewTask ;;
          match err with
          | Some e => ret (Return (Some e))
          | None =>
              err <- setupNetworking id config ;;
              match err with
              | Some e =>
                  call (task_Delete env) TaskDelete ;;;
                  ret (Return (Some e))
              | None =>
                  r <- monitorTask id sched ;;
                  match r with
                  | None => ret Waiting
                  | Some (_, Some e) => ret (Return (Some e))
                  | Some (status, None) => ret (Exit status)
                  end
              end
          end
      end
  end.

End Hooks.

(** ** Shapes of histories *)

(** The entries left by failed attempts of [reconnect], the newest first:
    each attempt sleeps 100 ms and then calls [client.Reconnect()]. *)
Definition failed_attempts (es : list error) : history :=
  flat_map (fun e => [ClientReconnect (Some e); Sleep 100]) es.

(** The entries left by one round of [trySendSignal] that is retried: the
    send answers the unavailable error [e], and [reconnect] succeeds after
    the failed attempts [fails]. *)
Definition retried_round (s : Z) (round : error * list error) : history :=
  ClientReconnect None :: Sleep 100
    :: failed_attempts (snd round) ++ [TaskKill s (Some (fst round))].

Definition round_ok (round : error * list error) : Prop :=
  unavailable (fst round) = true /\ (List.length (snd round) < 20)%nat.

(** The four ways in which [trySendSignal] ends. *)
Inductive relay_end : Type :=
| Delivered
| Refused (e : error)
| Disconnected (e : error) (fails : list error) (e' : error)
| Undeliverable.

Definition end_events (s : Z) (x : relay_end) : history :=
  match x with
  | Delivered => [TaskKill s None]
  | Refused e => [TaskKill s (Some e)]
  | Disconnected e fails e' =>
      ClientReconnect (Some e') :: Sleep 100
        :: failed_attempts fails ++ [TaskKill s (Some e)]
  | Undeliverable => []
  end.

Definition end_result (x : relay_end) : option error :=
  match x with
  | Delivered => None
  | Refused e => Some e
  | Disconnected _ _ e' => Some e'
  | Undeliverable => Some errUnableToSignal
  end.

Definition end_sends (x : relay_end) : nat :=
  match x with
  | Undeliverable => 0
  | _ => 1
  end.

Definition end_ok (x : relay_end) : Prop :=
  match x with
  | Refused e => unavailable e = false
  | Disconnected e fails _ =>
      unavailable e = true /\ List.length fails = 19%nat
  | _ => True
  end.

(** The entries left by [setupNetworking] for the services it has tried to
    register, the newest first: a failed registration is followed by its
    log entry. *)
Definition registered (id ip : string)
    (tried : list (string * Service * option error)) : history :=
  flat_map
    (fun t =>
       match t with
       | (name, srv, Some e) =>
           [LogError "register service" e; Register id name ip srv (Some e)]
       | (name, srv, None) => [Register id name ip srv None]
       end)
    tried.

(** What the loop of [monitorTask] does with the result of a relay. *)
Definition logged (msg : string) (r : option error * history) : history :=
  match fst r with
  | Some e => LogError msg e :: snd r
  | None => snd r
  end.

(** ** Observers of a history *)

(** An observer reads the entries of a stretch of history from the oldest
    to the newest, moving from state to state; [None] is a violation. *)
Section Observers.

Variable state : Type.
Variable observer : state -> event -> option state.

Fixpoint observe (s : state) (d : history) : option state :=
  match d with
  | [] => Some s
  | e :: d' =>
      match observe s d' with
      | Some s' => observer s' e
      | None => None
      end
  end.

End Observers.

Arguments observe {state} observer s d.


(** The health gate of the task, from the point of view of the loop. *)
Inductive gate : Type :=
| GateIdle
| GateStarted
| GateFailed
| GateConfirmed
| GateCleared.

(** [task.Start] returns (nil: [GateStarted]), the loop receives that nil
    from [started] ([GateConfirmed]) and only then, and only once, may
    [DisableMaintainance] be called ([GateCleared]). *)
Definition gate_observer (g : gate) (e : event) : option gate :=
  match e with
  | TaskStart r =>
      match g, r with
      | GateIdle, None => Some GateStarted
      | GateIdle, Some _ => Some GateFailed
      | _, _ => Some g
      end
  | RecvStarted None =>
      match g with
      | GateStarted => Some GateConfirmed
      | _ => Some g
      end
  | DisableMaintainance _ _ =>
      match g with
      | GateConfirmed => Some GateCleared
      | _ => None
      end
  | _ => Some g
  end.

(** Where the gate stands for a given content of the channel [started]. *)
Definition gate_of (started : started_chan) : gate :=
  match started with
  | NotSent => GateIdle
  | Buffered None => GateStarted
  | Buffered (Some _) => GateFailed
  | Drained => GateCleared
  end.

(** How many times the gate has been cleared in a state of the gate. *)
Definition cleared (g : gate) : nat :=
  match g with
  | GateCleared => 1
  | _ => 0
  end.

(** [h'] extends [h] by a stretch of history that the observer accepts
    from the state [s]. *)
Definition accepted {state : Type} (observer : state -> event -> option state)
    (s : state) (h h' : history) : Prop :=
  exists d : history, h' = d ++ h /\ observe observer s d <> None.

(** The observer that refuses every [task.Delete]. *)
Definition no_delete (s : unit) (e : event) : option unit :=
  if is_TaskDelete e then None else Some s.

(** Entries that no observer below looks at: what [reconnect] and
    [trySendSignal] leave, and the log. *)
Definition quiet (e : event) : bool :=
  match e with
  | TaskKill _ _ | Sleep _ | ClientReconnect _ | LogError _ _ | LogDebug _ => true
  | _ => false
  end.

(** ** Environments *)

(** [env] with another answer to [task.Delete]. *)
Definition with_task_Delete (env : Env) (answer : history -> option error) : Env :=
  mkEnv (client_LoadContainer env) (container_Info env)
        (typeurl_UnmarshalAny env) (container_NewTask env)
        (network_Create env) (register_Register env) (container_Task env)
        (task_Wait env) (task_Start env) (task_Kill env)
        answer
        (client_Reconnect env) (register_DisableMaintainance env)
        (register_EnableMaintainance env).

(** [env] with another answer to the network provisioner's [Create]. *)
Definition with_network_Create (env : Env)
    (answer : history -> string -> string + error) : Env :=
  mkEnv (client_LoadContainer env) (container_Info env)
        (typeurl_UnmarshalAny env) (container_NewTask env)
        answer
        (register_Register env) (container_Task env)
        (task_Wait env) (task_Start env) (task_Kill env) (task_Delete env)
        (client_Reconnect env) (register_DisableMaintainance env)
        (register_EnableMaintainance env).

(** [env] with another answer to [client.LoadContainer]. *)
Definition with_client_LoadContainer (env : Env)
    (answer : history -> string -> option error) : Env :=
  mkEnv answer
        (container_Info env)
        (typeurl_UnmarshalAny env) (container_NewTask env)
        (network_Create env) (register_Register env) (container_Task env)
        (task_Wait env) (task_Start env) (task_Kill env) (task_Delete env)
        (client_Reconnect env) (register_DisableMaintainance env)
        (register_EnableMaintainance env).

(** [env] with other answers of the service register. *)
Definition with_register (env : Env)
    (register : history -> string -> string -> string -> Service -> option error)
    (disable : history -> string -> option error)
    (enable : history -> string -> string -> option error) : Env :=
  mkEnv (client_LoadContainer env) (container_Info env)
        (typeurl_UnmarshalAny env) (container_NewTask env)
        (network_Create env)
        register
        (container_Task env)
        (task_Wait env) (task_Start env) (task_Kill env) (task_Delete env)
        (client_Reconnect env)
        disable enable.

(** [env] with other answers to [task.Kill] and [client.Reconnect]. *)
Definition with_connection (env : Env)
    (kill : history -> Z -> option error)
    (reconnect : history -> option error) : Env :=
  mkEnv (client_LoadContainer env) (container_Info env)
        (typeurl_UnmarshalAny env) (container_NewTask env)
        (network_Create env) (register_Register env) (container_Task env)
        (task_Wait env) (task_Start env)
        kill
        (task_Delete env)
        reconnect
        (register_DisableMaintainance env)
        (register_EnableMaintainance env).

(** A container with one service, and three errors: one that both
    classifiers refuse, one that [isUnavailable] accepts, one that
    [errdefs.IsNotFound] accepts. *)
Definition web_1 : Container := mkContainer "cni" [("http", mkService 8080 [])].
Definition refused : error := Err "permission denied" false false.
Definition conn_lost : error := Err "transport is closing" true false.
Definition task_gone : error := Err "no running task found" false true.

(** Collaborators that never fail: the container exists, has no task
    left over, gets the address 10.0.0.5. *)
Definition healthy : Env :=
  mkEnv (fun _ _ => None)
        (fun _ => None)
        (fun _ => inl (AnyContainer web_1))
        (fun _ => None)
        (fun _ _ => inl "10.0.0.5")
        (fun _ _ _ _ _ => None)
        (fun _ => Some task_gone)
        (fun _ => None)
        (fun _ => None)
        (fun _ _ => None)
        (fun _ => None)
        (fun _ => None)
        (fun _ _ => None)
        (fun _ _ _ => None).

(** A start, its confirmation, and the exit of the task with [code]. *)
Definition runs_until_exit (code : Z) : schedule :=
  [RunStart; SelStarted; SelWait (mkExit code None)].

(** The connection drops once while the loop waits: the wait channel
    delivers an unavailable error, and the task later exits with 0. *)
Definition connection_drops_once : schedule :=
  [RunStart; SelStarted; SelWait (mkExit 255 (Some conn_lost));
   SelWait (mkExit 0 None)].

(** The wait channel delivers a task-level error. *)
Definition task_level_wait_error : schedule :=
  [RunStart; SelStarted; SelWait (mkExit 255 (Some task_gone))].

(** The network provisioner fails. *)
Definition no_network : Env := with_network_Create healthy (fun _ _ => inr refused).

(** The runtime does not know the container. *)
Definition container_gone : error := Err "container not found" false true.
Definition no_container : Env :=
  with_client_LoadContainer healthy (fun _ _ => Some container_gone).

(** The service register is down: every call to it fails. *)
Definition register_down : Env :=
  with_register healthy (fun _ _ _ _ _ => Some refused)
    (fun _ _ => Some refused) (fun _ _ _ => Some refused).

(** The connection is down: every send is answered by an unavailable
    error, and so are the first [n] calls of [client.Reconnect] of the
    process. *)
Definition flaky (n : nat) : Env :=
  with_connection healthy (fun _ _ => Some conn_lost)
    (fun h => if (count is_ClientReconnect h <? n)%nat then Some conn_lost
              else None).

(** ** Further readings of a history *)

Definition is_TaskWait (e : event) : bool :=
  match e with TaskWait _ => true | _ => false end.
Definition is_Register (e : event) : bool :=
  match e with Register _ _ _ _ _ => true | _ => false end.
Definition is_LogError (e : event) : bool :=
  match e with LogError _ _ => true | _ => false end.
Definition is_EnableMaintainance (e : event) : bool :=
  match e with EnableMaintainance _ _ _ => true | _ => false end.

(** A task has been created: [container.NewTask] has answered nil. *)
Definition created (e : event) : bool :=
  match e with NewTask None => true | _ => false end.

(** The observer that refuses the entries picked by [p]. *)
Definition never (p : event -> bool) (s : unit) (e : event) : option unit :=
  if p e then None else Some s.

(** The entries that the loop of [monitorTask] can leave. *)
Definition loop_event (e : event) : bool :=
  match e with
  | TaskStart _ | TaskWait _ | DisableMaintainance _ _
  | RecvStarted _ | RecvSignal _ | RecvWait _ => true
  | _ => quiet e
  end.

(** The status that [monitorTask] returns on a wait event, the variable
    [err] being nil. *)
Definition reported_status (exit : ExitStatus) : Z :=
  match Error exit with
  | None => ExitCode exit
  | Some _ => -1
  end.

(** What made the loop return [res], read off the newest entry of its
    history. *)
Definition loop_cause (res : Z * option error) (h : history) : Prop :=
  match h with
  | RecvStarted (Some e) :: _ => res = (-1, Some e)
  | RecvWait exit :: _ => res = (reported_status exit, None)
  | _ => False
  end.

(** The same for [monitorTask], whose deferred [task.Delete] comes last. *)
Definition return_cause (res : Z * option error) (h : history) : Prop :=
  match h with
  | TaskDelete _ :: TaskWait (Some e) :: _ => res = (-1, Some e)
  | TaskDelete _ :: h' => loop_cause res h'
  | _ => False
  end.

(** The wait events of a schedule. *)
Definition is_SelWait (st : step) : bool :=
  match st with SelWait _ => true | _ => false end.

(** Signals arrive while the connection is down for good. *)
Definition signals_only : schedule :=
  [RunStart; SelSignal 15; SelStarted; SelSignal 1; SelSignal 15].

(** The entries that [setupNetworking] leaves above the answer of the
    network provisioner. *)
Definition registration_event (e : event) : bool :=
  is_Register e || quiet e.

(** The network provisioner has handed out an address (possibly empty). *)
Definition attached (e : event) : bool :=
  match e with NetworkCreate _ (inl _) => true | _ => false end.

(** The signal that the loop is relaying: the one it has received last,
    until it receives from another channel.  [task.Kill] may be called
    only with that signal. *)
Definition relay_observer (cur : option Z) (e : event) : option (option Z) :=
  match e with
  | RecvSignal s => Some (Some s)
  | RecvStarted _ | RecvWait _ => Some None
  | TaskKill s _ =>
      match cur with
      | Some s' => if s =? s' then Some cur else None
      | None => None
      end
  | _ => Some cur
  end.

(** Entries of a reconnection or of the log. *)
Definition silent (e : event) : bool :=
  match e with
  | Sleep _ | ClientReconnect _ | LogError _ _ => true
  | _ => false
  end.

(** Entries of the relay of the signal [s]. *)
Definition relay_event (s : Z) (e : event) : bool :=
  match e with
  | TaskKill s' _ => s' =? s
  | _ => silent e
  end.

(** The time spent in [time.Sleep], in milliseconds. *)
Fixpoint slept (h : history) : Z :=
  match h with
  | [] => 0
  | Sleep ms :: h' => ms + slept h'
  | _ :: h' => slept h'
  end.

(** ** The pre-start hook *)

(** What the pre-start hook does on the host: it creates a file, writes
    strings to it, closes it, and loads the apparmor profile. *)
Inductive host_event : Type :=
| OsCreate (dir name : string) (r : option error)
| WriteString (s : string) (r : option error)
| FileClose
| WithDefaultProfile (name : string) (r : option error).

Definition host_history : Type := list host_event.

(** The host: each field answers one kind of call, given the history of
    the calls to the host so far. *)
Record Host : Type := mkHost {
  os_Create : host_history -> string -> string -> option error;
  file_WriteString : host_history -> string -> option error;
  apparmor_WithDefaultProfile : host_history -> string -> option error
}.

(** [fmt.Sprintf("nameserver %s\n", ns)] *)
Definition resolv_line (ns : string) : string :=
  "nameserver " ++ ns ++ String (Ascii.ascii_of_nat 10) EmptyString.

(** The strings written with success, in the order of the writes. *)
Fixpoint written (log : host_history) : string :=
  match log with
  | [] => ""
  | WriteString s None :: log' => written log' ++ s
  | _ :: log' => written log'
  end.

Definition is_WriteString (e : host_event) : bool :=
  match e with WriteString _ _ => true | _ => false end.

Section PreStart.

Variable host : Host.

(** [config.Root], declared outside the files at hand. *)
Variable Root : string.

(** [cfg.Nameservers] *)
Variable Nameservers : list string.

(** [for _, ns := range cfg.Nameservers] *)
Fixpoint write_nameservers (nss : list string) (log : host_history)
    : option error * host_history :=
  match nss with
  | [] => (None, log)
  | ns :: nss' =>
      match file_WriteString host log (resolv_line ns) with
      | Some e => (Some e, WriteString (resolv_line ns) (Some e) :: log)
      | None =>
          write_nameservers nss' (WriteString (resolv_line ns) None :: log)
      end
  end.

(** [setupResolvConf]; the file is [filepath.Join(config.Root,
    "resolv.conf")], and [defer f.Close()] runs on every return that
    follows the creation. *)
Definition setupResolvConf (log : host_history) : option error * host_history :=
  match os_Create host log Root "resolv.conf" with
  | Some e => (Some e, OsCreate Root "resolv.conf" (Some e) :: log)
  | None =>
      let r := write_nameservers Nameservers
                 (OsCreate Root "resolv.conf" None :: log) in
      (fst r, FileClose :: snd r)
  end.

(** [setupApparmor] *)
Definition setupApparmor (log : host_history) : option error * host_history :=
  let r := apparmor_WithDefaultProfile host log "boss" in
  (r, WithDefaultProfile "boss" r :: log).

Variable env : Env.

(** [systemdExecStartPreCommand.Action], over the two histories. *)
Definition systemdExecStartPreCommand (id : string)
    (st : host_history * history) : hook_result * (host_history * history) :=
  let r := setupResolvConf (fst st) in
  match fst r with
  | Some e => (Return (Some e), (snd r, snd st))
  | None =>
      let a := setupApparmor (snd r) in
      match fst a with
      | Some e => (Return (Some e), (snd a, snd st))
      | None =>
          let c := cleanupPreviousTask env id (snd st) in
          (Return (fst c), (snd a, snd c))
      end
  end.

End PreStart.

(** A host on which nothing fails, and one whose disk is full after the
    first write. *)
Definition sound_host : Host :=
  mkHost (fun _ _ _ => None) (fun _ _ => None) (fun _ _ => None).
Definition disk_full : error := Err "no space left on device" false false.
Definition full_host : Host :=
  mkHost (fun _ _ _ => None)
         (fun log _ => if existsb is_WriteString log then Some disk_full else None)
         (fun _ _ => None).

(** The content that [setupResolvConf] means the file to have: one line
    for each name server, in order. *)
Fixpoint resolv_conf (nss : list string) : string :=
  match nss with
  | [] => ""
  | ns :: nss' => resolv_line ns ++ resolv_conf nss'
  end.

(** ** config.RegisterService *)

(** The two fields of [config.Config] that [RegisterService] reads. *)
Record Config : Type := mkConfig {
  Config_ID : string;
  Config_Iface : string
}.

(** [Config] is a pointer: [None] is nil. *)
Record RegisterService : Type := mkRegisterService {
  RegisterService_ID : string;
  RegisterService_Port : Z;
  RegisterService_Tags : list string;
  RegisterService_Config : option Config
}.

(** [api.AgentServiceRegistration], with the fields that [Run] sets. *)
Record AgentServiceRegistration : Type := mkRegistration {
  Registration_ID : string;
  Registration_Name : string;
  Registration_Tags : list string;
  Registration_Port : Z;
  Registration_Address : string
}.

Inductive consul_event : Type :=
| GetIP (iface : string) (r : string + error)
| NewClient (r : option error)
| ServiceRegister (reg : AgentServiceRegistration) (r : option error)
| ServiceDeregister (id : string) (r : option error).

Definition consul_history : Type := list consul_event.

(** [util.GetIP] and the consul client, as answers to calls. *)
Record Consul : Type := mkConsul {
  util_GetIP : consul_history -> string -> string + error;
  api_NewClient : consul_history -> option error;
  agent_ServiceRegister :
    consul_history -> AgentServiceRegistration -> option error;
  agent_ServiceDeregister : consul_history -> string -> option error
}.

Section RegisterServiceMethods.

Variable consul : Consul.

(** [func (s *RegisterService) Run]; [s.Config.Iface] panics on a nil
    [Config]. *)
Definition RegisterService_Run (s : RegisterService) (log : consul_history)
    : hook_result * consul_history :=
  match RegisterService_Config s with
  | None => (Panic, log)
  | Some cfg =>
      match util_GetIP consul log (Config_Iface cfg) with
      | inr e => (Return (Some e), GetIP (Config_Iface cfg) (inr e) :: log)
      | inl ip =>
          let log1 := GetIP (Config_Iface cfg) (inl ip) :: log in
          match api_NewClient consul log1 with
          | Some e => (Return (Some e), NewClient (Some e) :: log1)
          | None =>
              let log2 := NewClient None :: log1 in
              let reg :=
                mkRegistration
                  (RegisterService_ID s ++ "-" ++ Config_ID cfg)
                  (RegisterService_ID s)
                  (RegisterService_Tags s)
                  (RegisterService_Port s)
                  ip in
              (Return (agent_ServiceRegister consul log2 reg),
               ServiceRegister reg (agent_ServiceRegister consul log2 reg)
                 :: log2)
          end
      end
  end.

(** [func (s *RegisterService) Remove] *)
Definition RegisterService_Remove (s : RegisterService) (log : consul_history)
    : hook_result * consul_history :=
  match api_NewClient consul log with
  | Some e => (Return None, NewClient (Some e) :: log)
  | None =>
      let log1 := NewClient None :: log in
      (Return None,
       ServiceDeregister (RegisterService_ID s)
         (agent_ServiceDeregister consul log1 (RegisterService_ID s))
         :: log1)
  end.

End RegisterServiceMethods.

(** The services that the calls of a history have left registered: the
    IDs registered with success and not deregistered with success since. *)
Fixpoint services (log : consul_history) : list string :=
  match log with
  | [] => []
  | ServiceRegister reg None :: log' => Registration_ID reg :: services log'
  | ServiceDeregister id None :: log' => remove string_dec id (services log')
  | _ :: log' => services log'
  end.

(** A consul agent and an interface that answer every call. *)
Definition sound_consul : Consul :=
  mkConsul (fun _ _ => inl "192.168.1.7") (fun _ => None) (fun _ _ => None)
           (fun _ _ => None).
Definition web_service : RegisterService :=
  mkRegisterService "web" 8080 ["http"] (Some (mkConfig "node-1" "eth0")).

(** The entries that the start hook can leave. *)
Definition start_hook_event (e : event) : bool :=
  match e with
  | LoadContainer _ _ | ContainerInfo _ | UnmarshalAny _ | NewTask _
  | NetworkCreate _ _ | TaskDelete _ => true
  | _ => loop_event e || registration_event e
  end.

Definition is_TaskLookup (e : event) : bool :=
  match e with TaskLookup _ => true | _ => false end.

(** ** Runs of the loop *)

(** The history after the loop has received the signals [ss] one after
    the other: each is relayed, and the error of a relay is logged. *)
Fixpoint relayed (env : Env) (ss : list Z) (h : history) : history :=
  match ss with
  | [] => h
  | s :: ss' =>
      relayed env ss' (logged "signal task" (trySendSignal env s (RecvSignal s :: h)))
  end.

(** The entries on which [monitorTask] returns: a first [task.Wait] that
    fails, an error received from [started], a value received from the
    wait channel. *)
Definition exit_cause (e : event) : bool :=
  match e with
  | TaskWait (Some _) | RecvStarted (Some _) | RecvWait _ => true
  | _ => false
  end.



(** The start fails. *)
Definition start_refused : Env :=
  mkEnv (client_LoadContainer healthy) (container_Info healthy)
        (typeurl_UnmarshalAny healthy) (container_NewTask healthy)
        (network_Create healthy) (register_Register healthy)
        (container_Task healthy) (task_Wait healthy)
        (fun _ => Some refused)
        (task_Kill healthy) (task_Delete healthy) (client_Reconnect healthy)
        (register_DisableMaintainance healthy)
        (register_EnableMaintainance healthy).

(** * Properties *)

(** ** The monad *)

Lemma bind_run {A B : Type} (m : M A) (k : A -> M B) (h : history) :
  bind m k h = k (fst (m h)) (snd (m h)).
Proof. unfold bind. destruct (m h); reflexivity. Qed.

Lemma call_run {R : Type} (answer : history -> R) (ev : R -> event) (h : history) :
  call answer ev h = (answer h, ev (answer h) :: h).
Proof. reflexivity. Qed.

(** ** reconnect *)

Lemma failed_attempts_snoc (es : list error) (e : error) (h : history) :
  failed_attempts (es ++ [e]) ++ h
  = failed_attempts es ++ ClientReconnect (Some e) :: Sleep 100 :: h.
Proof.
  unfold failed_attempts. rewrite flat_map_app, <- app_assoc. reflexivity.
Qed.

Lemma reconnect_loop_shape (env : Env) (n : nat) :
  forall (err : option error) (h : history),
  exists (r : option error) (fails : list error),
    reconnect_loop env (S n) err h
    = (r, ClientReconnect r :: Sleep 100 :: failed_attempts fails ++ h)
    /\ (List.length fails <= n)%nat
    /\ (r <> None -> List.length fails = n).
Proof.
  induction n as [|n IH]; intros err h.
  - cbn [reconnect_loop]. rewrite bind_run. cbn [emit fst snd].
    rewrite bind_run, call_run. cbn [fst snd].
    destruct (client_Reconnect env (Sleep 100 :: h)) as [e|];
      [exists (Some e), [] | exists None, []]; cbn; repeat split; auto.
  - change (reconnect_loop env (S (S n)) err h)
      with (bind (emit (Sleep 100)) (fun _ =>
              bind (call (client_Reconnect env) ClientReconnect) (fun err0 =>
                match err0 with
                | None => ret None
                | Some _ => reconnect_loop env (S n) err0
                end)) h).
    rewrite bind_run. cbn [emit fst snd]. rewrite bind_run, call_run.
    cbn [fst snd].
    destruct (client_Reconnect env (Sleep 100 :: h)) as [e|].
    + destruct (IH (Some e) (ClientReconnect (Some e) :: Sleep 100 :: h))
        as (r & fails & Hrun & Hlen & Hex).
      exists r, (fails ++ [e]). rewrite Hrun, failed_attempts_snoc.
      rewrite length_app. cbn [List.length]. repeat split; auto; try lia.
      intros Hr. specialize (Hex Hr). lia.
    + exists None, []. cbn. repeat split; auto; try lia. congruence.
Qed.


(** The connection comes back at the third attempt. *)
Example reconnect_third_attempt :
  reconnect (flaky 2) []
  = (None,
     [ClientReconnect None; Sleep 100;
      ClientReconnect (Some conn_lost); Sleep 100;
      ClientReconnect (Some conn_lost); Sleep 100]).
Proof. reflexivity. Qed.

(** The connection does not come back: 20 attempts, then the last error. *)
Example reconnect_exhausted :
  fst (reconnect (flaky 20) []) = Some conn_lost
  /\ count is_ClientReconnect (snd (reconnect (flaky 20) [])) = 20%nat
  /\ count is_Sleep (snd (reconnect (flaky 20) [])) = 20%nat.
Proof. repeat split. Qed.

(** ** trySendSignal *)

Lemma count_app (p : event -> bool) (h1 h2 : history) :
  count p (h1 ++ h2) = (count p h1 + count p h2)%nat.
Proof. unfold count. rewrite filter_app, length_app. reflexivity. Qed.

Lemma count_failed_attempts_kill (es : list error) :
  count is_TaskKill (failed_attempts es) = 0%nat.
Proof. induction es as [|e es IH]; [reflexivity | exact IH]. Qed.

Lemma count_retried_round (s : Z) (round : error * list error) :
  count is_TaskKill (retried_round s round) = 1%nat.
Proof.
  unfold retried_round.
  change (count is_TaskKill (failed_attempts (snd round)
                               ++ [TaskKill s (Some (fst round))]) = 1%nat).
  rewrite count_app, count_failed_attempts_kill. reflexivity.
Qed.

Lemma count_rounds (s : Z) (rounds : list (error * list error)) :
  count is_TaskKill (flat_map (retried_round s) rounds) = List.length rounds.
Proof.
  induction rounds as [|round rounds IH]; [reflexivity|].
  cbn [flat_map List.length]. rewrite count_app, count_retried_round, IH.
  reflexivity.
Qed.

Lemma count_end_events (s : Z) (x : relay_end) :
  count is_TaskKill (end_events s x) = end_sends x.
Proof.
  destruct x as [|e|e fails e'|]; try reflexivity.
  cbn [end_events end_sends].
  change (count is_TaskKill (failed_attempts fails ++ [TaskKill s (Some e)])
          = 1%nat).
  rewrite count_app, count_failed_attempts_kill. reflexivity.
Qed.

Ltac norm_app := repeat (progress cbn [app] || rewrite <- app_assoc).

Lemma trySendSignal_loop_step (env : Env) (n : nat) (s : Z) (h : history) :
  trySendSignal_loop env (S n) s h
  = match task_Kill env h s with
    | None => (None, TaskKill s None :: h)
    | Some e =>
        if negb (unavailable e) then (Some e, TaskKill s (Some e) :: h)
        else
          match fst (reconnect env (TaskKill s (Some e) :: h)) with
          | Some e' =>
              (Some e', snd (reconnect env (TaskKill s (Some e) :: h)))
          | None =>
              trySendSignal_loop env n s
                (snd (reconnect env (TaskKill s (Some e) :: h)))
          end
    end.
Proof.
  cbn [trySendSignal_loop]. rewrite bind_run, call_run. cbn [fst snd].
  destruct (task_Kill env h s) as [e|]; [|reflexivity].
  cbn [isUnavailable]. destruct (unavailable e); cbn [negb]; [|reflexivity].
  rewrite bind_run.
  destruct (fst (reconnect env (TaskKill s (Some e) :: h))); reflexivity.
Qed.

Lemma trySendSignal_loop_shape (env : Env) (s : Z) (n : nat) :
  forall h : history,
  exists (rounds : list (error * list error)) (x : relay_end),
    trySendSignal_loop env n s h
    = (end_result x, end_events s x ++ flat_map (retried_round s) rounds ++ h)
    /\ (List.length rounds + end_sends x <= n)%nat
    /\ (x = Undeliverable -> List.length rounds = n)
    /\ Forall round_ok rounds
    /\ end_ok x.
Proof.
  induction n as [|n IH]; intros h.
  - exists [], Undeliverable. cbn. repeat split; auto.
  - rewrite trySendSignal_loop_step.
    destruct (task_Kill env h s) as [e|].
    + destruct (unavailable e) eqn:Hun; cbn [negb].
      * destruct (reconnect_loop_shape env 19 None (TaskKill s (Some e) :: h))
          as (r & fails & Hrun & Hlen & Hex).
        fold (reconnect env) in Hrun. rewrite Hrun. cbn [fst snd].
        destruct r as [e'|].
        -- exists [], (Disconnected e fails e'). cbn [end_result end_events flat_map].
           norm_app.
           repeat split; cbn; auto; try lia; try discriminate.
           apply Hex. discriminate.
        -- destruct (IH (ClientReconnect None :: Sleep 100
                           :: failed_attempts fails ++ TaskKill s (Some e) :: h))
             as (rounds & x & Hrec & Hbound & Hund & Hrounds & Hx).
           exists (rounds ++ [(e, fails)]), x. rewrite Hrec.
           rewrite flat_map_app, length_app. cbn [flat_map List.length].
           unfold retried_round. cbn [fst snd].
           norm_app.
           repeat split; auto; try lia.
           ++ intros Hx'. specialize (Hund Hx'). lia.
           ++ apply Forall_app. split; [exact Hrounds|].
              constructor; [|constructor]. split; cbn [fst snd]; [exact Hun|lia].
      * exists [], (Refused e). cbn. repeat split; auto; try lia; discriminate.
    + exists [], Delivered. cbn. repeat split; auto; try lia; discriminate.
Qed.

(** ** The loop of monitorTask *)

Lemma monitorTask_loop_start (env : Env) (id : string) (err : option error)
    (started : started_chan) (sched : schedule) (h : history) :
  monitorTask_loop env id err started (RunStart :: sched) h
  = match started with
    | NotSent =>
        monitorTask_loop env id err (Buffered (task_Start env h)) sched
          (TaskStart (task_Start env h) :: h)
    | _ => monitorTask_loop env id err started sched h
    end.
Proof. destruct started; reflexivity. Qed.

Lemma monitorTask_loop_started (env : Env) (id : string) (err : option error)
    (started : started_chan) (sched : schedule) (h : history) :
  monitorTask_loop env id err started (SelStarted :: sched) h
  = match started with
    | Buffered (Some e) => (Some (-1, Some e), RecvStarted (Some e) :: h)
    | Buffered None =>
        monitorTask_loop env id err Drained sched
          (logged "disable service maintenance"
             (register_DisableMaintainance env (RecvStarted None :: h) id,
              DisableMaintainance id
                (register_DisableMaintainance env (RecvStarted None :: h) id)
                :: RecvStarted None :: h))
    | _ => monitorTask_loop env id err started sched h
    end.
Proof.
  destruct started as [|[e|]|]; try reflexivity.
  cbn [monitorTask_loop]. rewrite bind_run. cbn [emit fst snd].
  rewrite bind_run, call_run. cbn [fst snd]. rewrite bind_run.
  unfold logged. cbn [fst snd].
  destruct (register_DisableMaintainance env (RecvStarted None :: h) id);
    reflexivity.
Qed.

Lemma monitorTask_loop_signal (env : Env) (id : string) (err : option error)
    (started : started_chan) (s : Z) (sched : schedule) (h : history) :
  monitorTask_loop env id err started (SelSignal s :: sched) h
  = monitorTask_loop env id err started sched
      (logged "signal task" (trySendSignal env s (RecvSignal s :: h))).
Proof.
  cbn [monitorTask_loop].
  rewrite bind_run. cbn [emit fst snd]. rewrite bind_run, bind_run.
  unfold logged.
  destruct (fst (trySendSignal env s (RecvSignal s :: h))); reflexivity.
Qed.

Lemma monitorTask_loop_wait (env : Env) (id : string) (err : option error)
    (started : started_chan) (exit : ExitStatus) (sched : schedule)
    (h : history) :
  monitorTask_loop env id err started (SelWait exit :: sched) h
  = match Error exit with
    | None => (Some (ExitCode exit, None), RecvWait exit :: h)
    | Some _ =>
        if negb (isUnavailable err) then (Some (-1, err), RecvWait exit :: h)
        else
          let r := reconnect env (RecvWait exit :: h) in
          match fst r with
          | Some e => (Some (-1, Some e), snd r)
          | None =>
              match task_Wait env (snd r) with
              | Some e => (Some (-1, Some e), TaskWait (Some e) :: snd r)
              | None =>
                  monitorTask_loop env id None started sched
                    (TaskWait None :: snd r)
              end
          end
    end.
Proof.
  cbn [monitorTask_loop]. rewrite bind_run. cbn [emit fst snd].
  destruct (Error exit); [|reflexivity].
  destruct (negb (isUnavailable err)); [reflexivity|].
  rewrite bind_run. cbn zeta.
  destruct (fst (reconnect env (RecvWait exit :: h))); [reflexivity|].
  rewrite bind_run, call_run. cbn [fst snd].
  destruct (task_Wait env (snd (reconnect env (RecvWait exit :: h))));
    reflexivity.
Qed.

(** The sends are always answered by an unavailable error and every
    reconnection succeeds at once: five sends, then [errUnableToSignal]. *)
Example trySendSignal_undeliverable :
  fst (trySendSignal (flaky 0) 15 []) = Some errUnableToSignal
  /\ count is_TaskKill (snd (trySendSignal (flaky 0) 15 [])) = 5%nat
  /\ count is_ClientReconnect (snd (trySendSignal (flaky 0) 15 [])) = 5%nat.
Proof. repeat split. Qed.

(** The send is refused: one send, no reconnection. *)
Example trySendSignal_refused :
  trySendSignal (with_connection healthy (fun _ _ => Some refused) (fun _ => None))
    15 []
  = (Some refused, [TaskKill 15 (Some refused)]).
Proof. reflexivity. Qed.

(** ** What reconnect and trySendSignal leave in the history *)

Lemma failed_attempts_quiet (es : list error) :
  Forall (fun e => quiet e = true) (failed_attempts es).
Proof.
  induction es as [|e es IH]; cbn; [constructor|].
  repeat constructor. exact IH.
Qed.

Lemma reconnect_quiet (env : Env) (h : history) :
  exists d : history,
    snd (reconnect env h) = d ++ h /\ Forall (fun e => quiet e = true) d.
Proof.
  destruct (reconnect_loop_shape env 19 None h) as (r & fails & Hrun & _).
  fold (reconnect env) in Hrun. rewrite Hrun. cbn [snd].
  exists (ClientReconnect r :: Sleep 100 :: failed_attempts fails).
  split; [reflexivity|]. repeat constructor. apply failed_attempts_quiet.
Qed.

Lemma retried_rounds_quiet (s : Z) (rounds : list (error * list error)) :
  Forall (fun e => quiet e = true) (flat_map (retried_round s) rounds).
Proof.
  induction rounds as [|round rounds IH]; cbn [flat_map]; [constructor|].
  apply Forall_app. split; [|exact IH].
  unfold retried_round. repeat constructor.
  apply Forall_app. split; [apply failed_attempts_quiet|repeat constructor].
Qed.

Lemma end_events_quiet (s : Z) (x : relay_end) :
  Forall (fun e => quiet e = true) (end_events s x).
Proof.
  destruct x as [|e|e fails e'|]; cbn [end_events]; repeat constructor.
  apply Forall_app. split; [apply failed_attempts_quiet|repeat constructor].
Qed.

Lemma relay_logged_quiet (env : Env) (s : Z) (h : history) :
  exists d : history,
    logged "signal task" (trySendSignal env s h) = d ++ h
    /\ Forall (fun e => quiet e = true) d.
Proof.
  destruct (trySendSignal_loop_shape env s 5 h) as (rounds & x & Hrun & _).
  fold (trySendSignal env s) in Hrun. rewrite Hrun. unfold logged. cbn [fst snd].
  assert (Hq : Forall (fun e => quiet e = true)
                 (end_events s x ++ flat_map (retried_round s) rounds))
    by (apply Forall_app; split;
        [apply end_events_quiet | apply retried_rounds_quiet]).
  destruct (end_result x) as [e|].
  - exists (LogError "signal task" e
            :: end_events s x ++ flat_map (retried_round s) rounds).
    split; [cbn [app]; rewrite <- app_assoc; reflexivity|].
    constructor; [reflexivity | exact Hq].
  - exists (end_events s x ++ flat_map (retried_round s) rounds).
    split; [rewrite <- app_assoc; reflexivity | exact Hq].
Qed.

(** ** Observing the loop *)

Section Observed.

Variable state : Type.
Variable observer : state -> event -> option state.

Lemma observe_app (s : state) (d2 d1 : history) :
  observe observer s (d2 ++ d1)
  = match observe observer s d1 with
    | Some s1 => observe observer s1 d2
    | None => None
    end.
Proof.
  induction d2 as [|e d2 IH]; cbn [app observe].
  - destruct (observe observer s d1); reflexivity.
  - rewrite IH. destruct (observe observer s d1); reflexivity.
Qed.

Lemma accepted_refl (s : state) (h : history) : accepted observer s h h.
Proof. exists []. split; [reflexivity | discriminate]. Qed.

Lemma accepted_step (s s1 : state) (d1 h h' : history) :
  observe observer s d1 = Some s1 ->
  accepted observer s1 (d1 ++ h) h' ->
  accepted observer s h h'.
Proof.
  intros H1 (d & Hd & Hobs). exists (d ++ d1).
  split; [rewrite Hd, app_assoc; reflexivity|].
  rewrite observe_app, H1. exact Hobs.
Qed.

Lemma accepted_last (s : state) (d1 h : history) :
  observe observer s d1 <> None -> accepted observer s h (d1 ++ h).
Proof. intros H. exists d1. split; [reflexivity | exact H]. Qed.

Hypothesis observer_quiet :
  forall (s : state) (e : event), quiet e = true -> observer s e = Some s.

Lemma observe_quiet (s : state) (d : history) :
  Forall (fun e => quiet e = true) d -> observe observer s d = Some s.
Proof.
  induction 1 as [|e d He _ IH]; cbn [observe]; [reflexivity|].
  rewrite IH. apply observer_quiet, He.
Qed.

Variable env : Env.
Variable id : string.

(** [view] tells in which state the observer is for each content of the
    channel [started] while the loop sits in its [select]. *)
Variable view : started_chan -> state.

Hypothesis view_start : forall r : option error,
  observer (view NotSent) (TaskStart r) = Some (view (Buffered r)).
Hypothesis view_start_failed : forall e : error,
  observer (view (Buffered (Some e))) (RecvStarted (Some e)) <> None.
Hypothesis view_started : forall r : option error,
  exists s1 : state,
    observer (view (Buffered None)) (RecvStarted None) = Some s1
    /\ observer s1 (DisableMaintainance id r) = Some (view Drained).
Hypothesis view_signal : forall (started : started_chan) (s : Z),
  observer (view started) (RecvSignal s) = Some (view started).
Hypothesis view_wait : forall (started : started_chan) (exit : ExitStatus),
  exists s1 : state,
    observer (view started) (RecvWait exit) = Some s1
    /\ observer s1 (TaskWait None) = Some (view started)
    /\ forall e : error, observer s1 (TaskWait (Some e)) <> None.

Lemma monitorTask_loop_accepted (sched : schedule) :
  forall (err : option error) (started : started_chan) (h : history),
    accepted observer (view started) h
      (snd (monitorTask_loop env id err started sched h)).
Proof.
  induction sched as [|st sched IH]; intros err started h.
  - apply accepted_refl.
  - destruct st as [| |s|exit].
    + rewrite monitorTask_loop_start. destruct started as [|r|]; try apply IH.
      apply (accepted_step _ (view (Buffered (task_Start env h)))
               [TaskStart (task_Start env h)]); [|apply IH].
      cbn [observe]. apply view_start.
    + rewrite monitorTask_loop_started. destruct started as [|[e|]|]; try apply IH.
      * cbn [snd]. apply (accepted_last _ [RecvStarted (Some e)]).
        cbn [observe]. apply view_start_failed.
      * destruct (view_started
                    (register_DisableMaintainance env (RecvStarted None :: h) id))
          as (s1 & H1 & H2).
        unfold logged. cbn [fst snd].
        destruct (register_DisableMaintainance env (RecvStarted None :: h) id)
          as [e|].
        -- apply (accepted_step _ (view Drained)
                    [LogError "disable service maintenance" e;
                     DisableMaintainance id (Some e); RecvStarted None]);
             [|apply IH].
           cbn [observe]. rewrite H1, H2. apply observer_quiet. reflexivity.
        -- apply (accepted_step _ (view Drained)
                    [DisableMaintainance id None; RecvStarted None]);
             [|apply IH].
           cbn [observe]. rewrite H1. exact H2.
    + rewrite monitorTask_loop_signal.
      destruct (relay_logged_quiet env s (RecvSignal s :: h)) as (d & Hd & Hq).
      rewrite Hd.
      apply (accepted_step _ (view started) (d ++ [RecvSignal s]));
        [|rewrite <- app_assoc; apply IH].
      rewrite observe_app. cbn [observe]. rewrite view_signal.
      apply observe_quiet, Hq.
    + rewrite monitorTask_loop_wait.
      destruct (view_wait started exit) as (s1 & H1 & H2 & H3).
      destruct (Error exit) as [e|].
      * destruct (negb (isUnavailable err)).
        -- cbn [snd]. apply (accepted_last _ [RecvWait exit]).
           cbn [observe]. rewrite H1. discriminate.
        -- cbn zeta.
           destruct (reconnect_quiet env (RecvWait exit :: h)) as (d & Hd & Hq).
           assert (Hobs : observe observer (view started) (d ++ [RecvWait exit])
                          = Some s1).
           { rewrite observe_app. cbn [observe]. rewrite H1.
             apply observe_quiet, Hq. }
           destruct (fst (reconnect env (RecvWait exit :: h))) as [e'|].
           ++ cbn [snd]. rewrite Hd.
              replace (d ++ RecvWait exit :: h) with ((d ++ [RecvWait exit]) ++ h)
                by (rewrite <- app_assoc; reflexivity).
              apply accepted_last. rewrite Hobs. discriminate.
           ++ rewrite Hd.
              destruct (task_Wait env (d ++ RecvWait exit :: h)) as [e'|].
              ** cbn [snd].
                 replace (TaskWait (Some e') :: d ++ RecvWait exit :: h)
                   with ((TaskWait (Some e') :: d ++ [RecvWait exit]) ++ h)
                   by (cbn [app]; rewrite <- app_assoc; reflexivity).
                 apply accepted_last. cbn [observe]. rewrite Hobs. apply H3.
              ** apply (accepted_step _ (view started)
                          (TaskWait None :: d ++ [RecvWait exit])).
                 --- cbn [observe]. rewrite Hobs. exact H2.
                 --- cbn [app]. rewrite <- app_assoc. apply IH.
      * cbn [snd]. apply (accepted_last _ [RecvWait exit]).
        cbn [observe]. rewrite H1. discriminate.
Qed.

End Observed.

(** ** monitorTask *)

Lemma monitorTask_run (env : Env) (id : string) (sched : schedule) (h : history) :
  monitorTask env id sched h
  = match task_Wait env h with
    | Some e =>
        (Some (-1, Some e),
         TaskDelete (task_Delete env (TaskWait (Some e) :: h))
           :: TaskWait (Some e) :: h)
    | None =>
        let r := monitorTask_loop env id None NotSent sched (TaskWait None :: h) in
        match fst r with
        | None => (None, snd r)
        | Some res => (Some res, TaskDelete (task_Delete env (snd r)) :: snd r)
        end
    end.
Proof.
  unfold monitorTask, monitorTask_body.
  rewrite bind_run, bind_run, call_run. cbn [fst snd].
  destruct (task_Wait env h) as [e|].
  - cbn [ret fst snd]. rewrite bind_run, call_run. reflexivity.
  - cbn zeta.
    destruct (fst (monitorTask_loop env id None NotSent sched (TaskWait None :: h)));
      [|reflexivity].
    rewrite bind_run, call_run. reflexivity.
Qed.

(** The variable [err] of [monitorTask] is nil whenever the loop looks at
    it, so that a wait event that carries an error, of whatever class, ends
    the loop with [-1] and a nil error, without a reconnection. *)
Lemma monitorTask_loop_wait_error (env : Env) (id : string)
    (started : started_chan) (exit : ExitStatus) (sched : schedule)
    (h : history) :
  Error exit <> None ->
  monitorTask_loop env id None started (SelWait exit :: sched) h
  = (Some (-1, None), RecvWait exit :: h).
Proof.
  intros Herr. rewrite monitorTask_loop_wait.
  destruct (Error exit); [reflexivity | congruence].
Qed.

(** C1 (the code departs from the claim): the connection drops once while
    the loop waits, every reconnection would succeed, and the task later
    exits with 0.  The loop classifies the nil variable [err] instead of
    the error of the wait event, makes no reconnection and returns
    [(-1, nil)], so that the hook calls [os.Exit(-1)] and never sees the
    exit of the task. *)
Theorem exec_start_lost_connection_exits_minus_one :
  systemdExecStartCommand healthy "web-1" connection_drops_once []
  = (Exit (-1),
     [TaskDelete None;
      RecvWait (mkExit 255 (Some conn_lost));
      DisableMaintainance "web-1" None; RecvStarted None;
      TaskStart None; TaskWait None;
      Register "web-1" "http" "10.0.0.5" (mkService 8080 []) None;
      LogDebug "setup network interface";
      NetworkCreate "cni" (inl "10.0.0.5"); NewTask None;
      UnmarshalAny (inl (AnyContainer web_1));
      ContainerInfo None; LoadContainer "web-1" None]).
Proof. reflexivity. Qed.

(** C2 (the code departs from the claim): the wait channel delivers a
    task-level error.  The loop makes no reconnection and returns at once,
    but the error it returns is the nil variable [err], not the error of
    the wait event. *)
Theorem monitorTask_task_level_wait_error_returns_nil :
  monitorTask healthy "web-1" task_level_wait_error []
  = (Some (-1, None),
     [TaskDelete None;
      RecvWait (mkExit 255 (Some task_gone));
      DisableMaintainance "web-1" None; RecvStarted None;
      TaskStart None; TaskWait None]).
Proof. reflexivity. Qed.

(** ** The health gate *)

Lemma gate_quiet (g : gate) (e : event) :
  quiet e = true -> gate_observer g e = Some g.
Proof. destruct e; cbn; congruence. Qed.

Lemma monitorTask_loop_gated (env : Env) (id : string) (sched : schedule)
    (err : option error) (started : started_chan) (h : history) :
  accepted gate_observer (gate_of started) h
    (snd (monitorTask_loop env id err started sched h)).
Proof.
  apply (monitorTask_loop_accepted gate gate_observer gate_quiet env id gate_of).
  - intros [e|]; reflexivity.
  - discriminate.
  - intros r. exists GateConfirmed. split; reflexivity.
  - reflexivity.
  - intros st exit. exists (gate_of st). repeat split. discriminate.
Qed.

Lemma gate_cleared_count (d : history) :
  forall g g' : gate,
    observe gate_observer g d = Some g' ->
    (count is_DisableMaintainance d + cleared g = cleared g')%nat.
Proof.
  induction d as [|e d IH]; intros g g' H; cbn [observe] in H.
  - injection H as <-. reflexivity.
  - destruct (observe gate_observer g d) as [g1|] eqn:H1; [|discriminate].
    specialize (IH g g1 H1).
    destruct e as [ | | | | | | | |r| | | | | | | | |r| | ];
      try (cbn in H; injection H as <-; exact IH);
      destruct g1; try destruct r; cbn in H; try discriminate;
      injection H as <-; unfold count in *; cbn in *; lia.
Qed.

Lemma observe_last {state : Type} (observer : state -> event -> option state)
    (s : state) (e : event) (d : history) :
  (forall s' : state, observer s' e = Some s') ->
  observe observer s d <> None ->
  observe observer s (e :: d) <> None.
Proof.
  intros He Hd. cbn [observe]. destruct (observe observer s d) as [s'|];
    [rewrite He; discriminate | congruence].
Qed.

(** C4: the stretch of history that a run of [monitorTask] adds is
    accepted by the gate observer: [DisableMaintainance] is called only
    right after the loop has received, from [started], the nil that
    [task.Start] returned, and never a second time; it is called at most
    once; and whether it answers nil or an error (which is logged), the
    loop goes on with the rest of the schedule. *)
Theorem disableMaintainance_once_after_start (env : Env) (id : string)
    (sched : schedule) (h : history) :
  (exists d : history,
     snd (monitorTask env id sched h) = d ++ h
     /\ observe gate_observer GateIdle d <> None
     /\ (count is_DisableMaintainance d <= 1)%nat)
  /\ (forall err : option error,
        monitorTask_loop env id err (Buffered None) (SelStarted :: sched) h
        = monitorTask_loop env id err Drained sched
            (logged "disable service maintenance"
               (register_DisableMaintainance env (RecvStarted None :: h) id,
                DisableMaintainance id
                  (register_DisableMaintainance env (RecvStarted None :: h) id)
                  :: RecvStarted None :: h))).
Proof.
  split; [|intros err; apply monitorTask_loop_started].
  assert (Hgate : exists d : history,
             snd (monitorTask env id sched h) = d ++ h
             /\ observe gate_observer GateIdle d <> None).
  { rewrite monitorTask_run. destruct (task_Wait env h) as [e|].
    - exists [TaskDelete (task_Delete env (TaskWait (Some e) :: h));
              TaskWait (Some e)].
      split; [reflexivity | discriminate].
    - cbn zeta.
      destruct (monitorTask_loop_gated env id sched None NotSent
                  (TaskWait None :: h)) as (d & Hd & Hobs).
      assert (Hobs' : observe gate_observer GateIdle (d ++ [TaskWait None])
                      <> None)
        by (rewrite observe_app; exact Hobs).
      destruct (fst (monitorTask_loop env id None NotSent sched
                       (TaskWait None :: h))).
      + cbn [snd]. rewrite Hd.
        exists (TaskDelete (task_Delete env (d ++ TaskWait None :: h))
                  :: d ++ [TaskWait None]).
        split; [cbn [app]; rewrite <- app_assoc; reflexivity|].
        apply observe_last; [reflexivity | exact Hobs'].
      + cbn [snd]. exists (d ++ [TaskWait None]).
        split; [rewrite Hd, <- app_assoc; reflexivity | exact Hobs']. }
  destruct Hgate as (d & Hd & Hobs). exists d. repeat split; try assumption.
  destruct (observe gate_observer GateIdle d) as [g|] eqn:Hg; [|congruence].
  pose proof (gate_cleared_count d GateIdle g Hg) as Hc.
  destruct g; cbn in Hc; lia.
Qed.

(** ** Teardown *)

Lemma no_delete_quiet (s : unit) (e : event) :
  quiet e = true -> no_delete s e = Some s.
Proof. destruct e; cbn; congruence. Qed.

Lemma monitorTask_loop_no_delete (env : Env) (id : string) (sched : schedule)
    (err : option error) (started : started_chan) (h : history) :
  accepted no_delete tt h (snd (monitorTask_loop env id err started sched h)).
Proof.
  apply (monitorTask_loop_accepted unit no_delete no_delete_quiet env id
           (fun _ => tt)).
  - reflexivity.
  - discriminate.
  - intros r. exists tt. split; reflexivity.
  - reflexivity.
  - intros _ exit. exists tt. repeat split. discriminate.
Qed.

Lemma no_delete_count (d : history) :
  observe no_delete tt d <> None -> count is_TaskDelete d = 0%nat.
Proof.
  induction d as [|e d IH]; intros H; [reflexivity|].
  cbn [observe] in H.
  destruct (observe no_delete tt d) as [[]|]; [|congruence].
  unfold no_delete in H. unfold count in *. cbn [filter].
  destruct (is_TaskDelete e); [congruence|]. apply IH. discriminate.
Qed.

Lemma reconnect_loop_with_task_Delete (env : Env)
    (answer : history -> option error) (n : nat) :
  reconnect_loop (with_task_Delete env answer) n = reconnect_loop env n.
Proof.
  induction n as [|n IH]; [reflexivity|].
  cbn [reconnect_loop]. rewrite IH. reflexivity.
Qed.

Lemma trySendSignal_loop_with_task_Delete (env : Env)
    (answer : history -> option error) (n : nat) :
  trySendSignal_loop (with_task_Delete env answer) n = trySendSignal_loop env n.
Proof.
  induction n as [|n IH]; [reflexivity|].
  cbn [trySendSignal_loop]. rewrite IH. unfold reconnect.
  rewrite reconnect_loop_with_task_Delete. reflexivity.
Qed.

Lemma monitorTask_loop_with_task_Delete (env : Env)
    (answer : history -> option error) (id : string) (sched : schedule) :
  forall (err : option error) (started : started_chan) (h : history),
    monitorTask_loop (with_task_Delete env answer) id err started sched h
    = monitorTask_loop env id err started sched h.
Proof.
  induction sched as [|st sched IH]; intros err started h; [reflexivity|].
  destruct st as [| |s|exit].
  - rewrite !monitorTask_loop_start. destruct started; apply IH.
  - rewrite !monitorTask_loop_started. destruct started as [|[e|]|];
      try apply IH; reflexivity.
  - rewrite !monitorTask_loop_signal. unfold trySendSignal.
    rewrite trySendSignal_loop_with_task_Delete. apply IH.
  - rewrite !monitorTask_loop_wait. unfold reconnect.
    rewrite reconnect_loop_with_task_Delete.
    destruct (Error exit); [|reflexivity].
    destruct (negb (isUnavailable err)); [reflexivity|]. cbn zeta.
    destruct (fst (reconnect_loop env 20 None (RecvWait exit :: h)));
      [reflexivity|].
    cbn [task_Wait with_task_Delete].
    destruct (task_Wait env (snd (reconnect_loop env 20 None (RecvWait exit :: h))));
      [reflexivity | apply IH].
Qed.

(** ** cleanupPreviousTask *)

Lemma cleanupPreviousTask_run (env : Env) (id : string) (h : history) :
  cleanupPreviousTask env id h
  = match client_LoadContainer env h id with
    | Some e => (Some e, LoadContainer id (Some e) :: h)
    | None =>
        match container_Task env (LoadContainer id None :: h) with
        | Some e =>
            (if not_found e then None else Some e,
             TaskLookup (Some e) :: LoadContainer id None :: h)
        | None =>
            (task_Delete env (TaskLookup None :: LoadContainer id None :: h),
             TaskDelete
               (task_Delete env (TaskLookup None :: LoadContainer id None :: h))
               :: TaskLookup None :: LoadContainer id None :: h)
        end
    end.
Proof.
  unfold cleanupPreviousTask. rewrite bind_run, call_run. cbn [fst snd].
  destruct (client_LoadContainer env h id) as [e|]; [reflexivity|].
  rewrite bind_run, call_run. cbn [fst snd].
  destruct (container_Task env (LoadContainer id None :: h)) as [e|];
    [|reflexivity].
  cbn [IsNotFound]. destruct (not_found e); reflexivity.
Qed.

(** C8: when the container has no task (it loads, and the lookup of its
    task answers a not-found error), [cleanupPreviousTask] returns nil
    after these two lookups and nothing else, and a second call right
    after the first does the same. *)
Theorem cleanupPreviousTask_twice_without_task (env : Env) (id : string)
    (h : history) :
  (forall h' : history, client_LoadContainer env h' id = None) ->
  (forall h' : history, IsNotFound (container_Task env h') = true) ->
  exists e1 e2 : error,
    cleanupPreviousTask env id h
    = (None, TaskLookup (Some e1) :: LoadContainer id None :: h)
    /\ cleanupPreviousTask env id
         (TaskLookup (Some e1) :: LoadContainer id None :: h)
       = (None,
          TaskLookup (Some e2) :: LoadContainer id None
            :: TaskLookup (Some e1) :: LoadContainer id None :: h)
    /\ not_found e1 = true /\ not_found e2 = true.
Proof.
  intros Hload Htask.
  assert (Hone : forall h0 : history,
             exists e : error,
               cleanupPreviousTask env id h0
               = (None, TaskLookup (Some e) :: LoadContainer id None :: h0)
               /\ not_found e = true).
  { intros h0. rewrite cleanupPreviousTask_run, Hload.
    specialize (Htask (LoadContainer id None :: h0)).
    destruct (container_Task env (LoadContainer id None :: h0)) as [e|];
      [|discriminate].
    cbn [IsNotFound] in Htask. exists e. rewrite Htask. split; reflexivity. }
  destruct (Hone h) as (e1 & H1 & Hn1).
  destruct (Hone (TaskLookup (Some e1) :: LoadContainer id None :: h))
    as (e2 & H2 & Hn2).
  exists e1, e2. repeat split; assumption.
Qed.

Lemma cleanupPreviousTask_twice_without_task_witness :
  exists e1 e2 : error,
    cleanupPreviousTask healthy "web-1" []
    = (None, [TaskLookup (Some e1); LoadContainer "web-1" None])
    /\ cleanupPreviousTask healthy "web-1"
         [TaskLookup (Some e1); LoadContainer "web-1" None]
       = (None,
          [TaskLookup (Some e2); LoadContainer "web-1" None;
           TaskLookup (Some e1); LoadContainer "web-1" None])
    /\ not_found e1 = true /\ not_found e2 = true.
Proof.
  apply (cleanupPreviousTask_twice_without_task healthy "web-1" []).
  - reflexivity.
  - reflexivity.
Defined.

(** C10: an error of [LoadContainer], not-found or other, is returned as
    it is and nothing else is called; [cleanupPreviousTask] returns nil
    only when the container loads and either the lookup of its task
    answers a not-found error or the task is found and its deletion
    answers nil; any other error of the lookup is returned. *)
Theorem cleanupPreviousTask_needs_container (env : Env) (id : string)
    (h : history) :
  (forall e : error,
     client_LoadContainer env h id = Some e ->
     cleanupPreviousTask env id h = (Some e, LoadContainer id (Some e) :: h))
  /\ (fst (cleanupPreviousTask env id h) = None <->
      client_LoadContainer env h id = None
      /\ (IsNotFound (container_Task env (LoadContainer id None :: h)) = true
          \/ (container_Task env (LoadContainer id None :: h) = None
              /\ task_Delete env (TaskLookup None :: LoadContainer id None :: h)
                 = None)))
  /\ (forall e : error,
        client_LoadContainer env h id = None ->
        container_Task env (LoadContainer id None :: h) = Some e ->
        not_found e = false ->
        cleanupPreviousTask env id h
        = (Some e, TaskLookup (Some e) :: LoadContainer id None :: h)).
Proof.
  rewrite cleanupPreviousTask_run. repeat split.
  - intros e He. rewrite He. reflexivity.
  - destruct (client_LoadContainer env h id); [discriminate | reflexivity].
  - destruct (client_LoadContainer env h id); [discriminate|].
    destruct (container_Task env (LoadContainer id None :: h)) as [e|];
      cbn [fst IsNotFound] in *.
    + left. destruct (not_found e); [reflexivity | discriminate].
    + right. split; [reflexivity | assumption].
  - intros (Hload & [Hnf | (Htask & Hdel)]); rewrite Hload.
    + destruct (container_Task env (LoadContainer id None :: h)) as [e|];
        [|discriminate].
      cbn [IsNotFound] in Hnf. rewrite Hnf. reflexivity.
    + rewrite Htask. exact Hdel.
  - intros e Hload Htask Hnf. rewrite Hload, Htask, Hnf. reflexivity.
Qed.

(** A container that the runtime does not know: the not-found error of
    [LoadContainer] is returned, not turned into a success. *)
Example cleanupPreviousTask_missing_container :
  cleanupPreviousTask no_container "web-1" []
  = (Some container_gone, [LoadContainer "web-1" (Some container_gone)]).
Proof. reflexivity. Qed.

(** ** Errors of the secondary steps *)

Lemma registered_snoc (id ip : string)
    (tried : list (string * Service * option error))
    (t : string * Service * option error) (h : history) :
  registered id ip (tried ++ [t]) ++ h
  = registered id ip tried ++ registered id ip [t] ++ h.
Proof. unfold registered. rewrite flat_map_app, <- app_assoc. reflexivity. Qed.

Lemma register_services_shape (env : Env) (id ip : string)
    (srvs : list (string * Service)) :
  forall h : history,
  exists tried : list (string * Service * option error),
    register_services env id ip srvs h = (tt, registered id ip tried ++ h)
    /\ map fst (rev tried) = srvs.
Proof.
  induction srvs as [|[name srv] srvs IH]; intros h.
  - exists []. split; reflexivity.
  - cbn [register_services]. rewrite bind_run, call_run. cbn [fst snd].
    rewrite bind_run.
    destruct (register_Register env h id name ip srv) as [e|] eqn:Hreg;
      cbn [logError emit ret fst snd].
    + destruct (IH (LogError "register service" e
                      :: Register id name ip srv (Some e) :: h))
        as (tried & Hrun & Hsrvs).
      exists (tried ++ [(name, srv, Some e)]).
      rewrite Hrun, registered_snoc, rev_app_distr. cbn. rewrite Hsrvs.
      split; reflexivity.
    + destruct (IH (Register id name ip srv None :: h))
        as (tried & Hrun & Hsrvs).
      exists (tried ++ [(name, srv, None)]).
      rewrite Hrun, registered_snoc, rev_app_distr. cbn. rewrite Hsrvs.
      split; reflexivity.
Qed.

Lemma setupNetworking_run (env : Env) (id : string) (c : Container)
    (h : history) :
  setupNetworking env id c h
  = match network_Create env h (Network c) with
    | inr e => (Some e, NetworkCreate (Network c) (inr e) :: h)
    | inl ip =>
        if String.eqb ip "" then (None, NetworkCreate (Network c) (inl ip) :: h)
        else
          (None,
           snd (register_services env id ip (Services c)
                  (LogDebug "setup network interface"
                     :: NetworkCreate (Network c) (inl ip) :: h)))
    end.
Proof.
  unfold setupNetworking. rewrite bind_run, call_run. cbn [fst snd].
  destruct (network_Create env h (Network c)) as [ip|e]; [|reflexivity].
  destruct (String.eqb ip ""); [reflexivity|].
  rewrite bind_run. cbn [emit fst snd]. rewrite bind_run. reflexivity.
Qed.

(** C7, as stated, fails: when the network provisioner answers an error,
    the start hook deletes the task and returns that error, which nothing
    has logged. *)
Lemma network_error_fails_the_start_hook :
  systemdExecStartCommand no_network "web-1" (runs_until_exit 0) []
  = (Return (Some refused),
     [TaskDelete None; NetworkCreate "cni" (inr refused); NewTask None;
      UnmarshalAny (inl (AnyContainer web_1)); ContainerInfo None;
      LoadContainer "web-1" None]).
Proof. reflexivity. Qed.

(** With the service register down, the start hook still exits with the
    exit code of the task; the two failures are in the log. *)
Example register_down_start_hook :
  systemdExecStartCommand register_down "web-1" (runs_until_exit 137) []
  = (Exit 137,
     [TaskDelete None; RecvWait (mkExit 137 None);
      LogError "disable service maintenance" refused;
      DisableMaintainance "web-1" (Some refused); RecvStarted None;
      TaskStart None; TaskWait None;
      LogError "register service" refused;
      Register "web-1" "http" "10.0.0.5" (mkService 8080 []) (Some refused);
      LogDebug "setup network interface";
      NetworkCreate "cni" (inl "10.0.0.5"); NewTask None;
      UnmarshalAny (inl (AnyContainer web_1));
      ContainerInfo None; LoadContainer "web-1" None]).
Proof. reflexivity. Qed.

(** With the service register down, the post hook fails although the
    cleanup has succeeded. *)
Example register_down_post_hook :
  systemdExecStartPostCommand register_down "web-1" []
  = (Return (Some refused),
     [EnableMaintainance "web-1" "task exited" (Some refused);
      TaskLookup (Some task_gone); LoadContainer "web-1" None]).
Proof. reflexivity. Qed.

(** The scenario of a task that exits with 137. *)
Example start_hook_exit_code :
  fst (systemdExecStartCommand healthy "web-1" (runs_until_exit 137) [])
  = Exit 137.
Proof. reflexivity. Qed.

(** * Further properties *)

(** ** What the loop never does *)

Lemma never_quiet (p : event -> bool) :
  (forall e : event, loop_event e = true -> p e = false) ->
  forall (s : unit) (e : event), quiet e = true -> never p s e = Some s.
Proof.
  intros Hp s e He. unfold never. rewrite Hp; [reflexivity|].
  destruct e; cbn in *; congruence.
Qed.

Lemma monitorTask_loop_never (p : event -> bool) (env : Env) (id : string)
    (sched : schedule) (err : option error) (started : started_chan)
    (h : history) :
  (forall e : event, loop_event e = true -> p e = false) ->
  accepted (never p) tt h (snd (monitorTask_loop env id err started sched h)).
Proof.
  intros Hp.
  apply (monitorTask_loop_accepted unit (never p) (never_quiet p Hp) env id
           (fun _ => tt)).
  - intros r. unfold never. rewrite Hp; reflexivity.
  - intros e. unfold never. rewrite Hp; [discriminate | reflexivity].
  - intros r. exists tt. unfold never. rewrite !Hp; try reflexivity.
    split; reflexivity.
  - intros _ s. unfold never. rewrite Hp; reflexivity.
  - intros _ exit. exists tt. unfold never. rewrite !Hp; try reflexivity.
    repeat split. intros e. rewrite Hp; [discriminate | reflexivity].
Qed.

Lemma never_count (p : event -> bool) (d : history) :
  observe (never p) tt d <> None -> count p d = 0%nat.
Proof.
  induction d as [|e d IH]; intros H; [reflexivity|].
  cbn [observe] in H.
  destruct (observe (never p) tt d) as [[]|]; [|congruence].
  unfold never in H. unfold count in *. cbn [filter].
  destruct (p e); [congruence|]. apply IH. discriminate.
Qed.

Lemma monitorTask_loop_count (p : event -> bool) (env : Env) (id : string)
    (sched : schedule) (err : option error) (started : started_chan)
    (h : history) :
  (forall e : event, loop_event e = true -> p e = false) ->
  count p (snd (monitorTask_loop env id err started sched h)) = count p h.
Proof.
  intros Hp.
  destruct (monitorTask_loop_never p env id sched err started h Hp)
    as (d & Hd & Hobs).
  rewrite Hd, count_app, (never_count p d Hobs). reflexivity.
Qed.

Lemma count_quiet (p : event -> bool) (d : history) :
  (forall e : event, quiet e = true -> p e = false) ->
  Forall (fun e => quiet e = true) d -> count p d = 0%nat.
Proof.
  intros Hp Hd. induction Hd as [|e d He _ IH]; [reflexivity|].
  unfold count in *. cbn [filter]. rewrite (Hp e He). exact IH.
Qed.

(** ** The results of monitorTask *)

(** With its variable [err] nil, the loop calls [task.Wait] no more, and
    returns either on a start that failed or on the first wait event. *)
Lemma monitorTask_loop_nil (env : Env) (id : string) (sched : schedule) :
  forall (started : started_chan) (h : history),
    count is_TaskWait (snd (monitorTask_loop env id None started sched h))
    = count is_TaskWait h
    /\ forall res : Z * option error,
         fst (monitorTask_loop env id None started sched h) = Some res ->
         loop_cause res (snd (monitorTask_loop env id None started sched h))
         /\ (snd res = None ->
             exists exit : ExitStatus,
               In (SelWait exit) sched /\ fst res = reported_status exit).
Proof.
  induction sched as [|st sched IH]; intros started h.
  - split; [reflexivity | discriminate].
  - assert (Hin : forall (res : Z * option error) (h0 : history),
              (loop_cause res h0
               /\ (snd res = None ->
                   exists exit : ExitStatus,
                     In (SelWait exit) sched /\ fst res = reported_status exit)) ->
              loop_cause res h0
              /\ (snd res = None ->
                  exists exit : ExitStatus,
                    In (SelWait exit) (st :: sched)
                    /\ fst res = reported_status exit)).
    { intros res h0 (Hc & Hs). split; [exact Hc|].
      intros Hn. destruct (Hs Hn) as (exit & Hi & Hr).
      exists exit. split; [right; exact Hi | exact Hr]. }
    destruct st as [| |s|exit].
    + rewrite monitorTask_loop_start. destruct started as [|r|].
      * destruct (IH (Buffered (task_Start env h))
                    (TaskStart (task_Start env h) :: h)) as (Hc & Hr).
        split; [rewrite Hc; reflexivity|]. intros res Hres. apply Hin, Hr, Hres.
      * destruct (IH (Buffered r) h) as (Hc & Hr).
        split; [exact Hc|]. intros res Hres. apply Hin, Hr, Hres.
      * destruct (IH Drained h) as (Hc & Hr).
        split; [exact Hc|]. intros res Hres. apply Hin, Hr, Hres.
    + rewrite monitorTask_loop_started. destruct started as [|[e|]|].
      * destruct (IH NotSent h) as (Hc & Hr).
        split; [exact Hc|]. intros res Hres. apply Hin, Hr, Hres.
      * cbn [fst snd]. split; [reflexivity|].
        intros res Hres. injection Hres as <-. split; [reflexivity|discriminate].
      * match goal with
        | |- context [monitorTask_loop env id None Drained sched ?h1] =>
            destruct (IH Drained h1) as (Hc & Hr);
            assert (Hh1 : count is_TaskWait h1 = count is_TaskWait h)
        end.
        { unfold logged. cbn [fst snd].
          destruct (register_DisableMaintainance env (RecvStarted None :: h) id);
            reflexivity. }
        split; [rewrite Hc; exact Hh1|]. intros res Hres. apply Hin, Hr, Hres.
      * destruct (IH Drained h) as (Hc & Hr).
        split; [exact Hc|]. intros res Hres. apply Hin, Hr, Hres.
    + rewrite monitorTask_loop_signal.
      destruct (relay_logged_quiet env s (RecvSignal s :: h)) as (d & Hd & Hq).
      rewrite Hd. destruct (IH started (d ++ RecvSignal s :: h)) as (Hc & Hr).
      split.
      * rewrite Hc, count_app, (count_quiet is_TaskWait d); [reflexivity| |exact Hq].
        intros e He. destruct e; cbn in *; congruence.
      * intros res Hres. apply Hin, Hr, Hres.
    + rewrite monitorTask_loop_wait. cbn [isUnavailable negb].
      unfold loop_cause, reported_status.
      destruct (Error exit) as [e|] eqn:He; cbn [fst snd].
      * split; [reflexivity|]. intros res Hres. injection Hres as <-.
        rewrite He. split; [reflexivity|]. intros _. exists exit.
        rewrite He. split; [left; reflexivity | reflexivity].
      * split; [reflexivity|]. intros res Hres. injection Hres as <-.
        rewrite He. split; [reflexivity|]. intros _. exists exit.
        rewrite He. split; [left; reflexivity | reflexivity].
Qed.

(** X1: when [monitorTask] returns, the entry below its deferred
    [task.Delete] tells the result: [-1] and the error after a first
    [task.Wait] or a [task.Start] that failed; otherwise a nil error, with
    the exit code of the wait event, or [-1] when that event carries an
    error.  [task.Wait] has been called once in all. *)
Theorem monitorTask_return_cause (env : Env) (id : string) (sched : schedule)
    (h : history) (res : Z * option error) (h' : history) :
  monitorTask env id sched h = (Some res, h') ->
  return_cause res h'
  /\ count is_TaskWait h' = S (count is_TaskWait h).
Proof.
  rewrite monitorTask_run. intros Hrun.
  destruct (task_Wait env h) as [e|].
  - injection Hrun as <- <-. split; reflexivity.
  - cbn zeta in Hrun.
    destruct (monitorTask_loop_nil env id sched NotSent (TaskWait None :: h))
      as (Hc & Hr).
    destruct (fst (monitorTask_loop env id None NotSent sched (TaskWait None :: h)))
      as [res'|]; [|discriminate].
    injection Hrun as <- <-. destruct (Hr res' eq_refl) as (Hcause & _).
    split.
    + destruct (snd (monitorTask_loop env id None NotSent sched
                       (TaskWait None :: h))) as [|e0 rest];
        [destruct Hcause|].
      destruct e0; cbn [loop_cause] in Hcause; try contradiction;
        exact Hcause.
    + change (count is_TaskWait
                (snd (monitorTask_loop env id None NotSent sched
                        (TaskWait None :: h)))
              = S (count is_TaskWait h)).
      rewrite Hc. reflexivity.
Qed.

Lemma monitorTask_return_cause_witness :
  return_cause (137, None)
    [TaskDelete None; RecvWait (mkExit 137 None);
     DisableMaintainance "web-1" None; RecvStarted None;
     TaskStart None; TaskWait None]
  /\ count is_TaskWait
       [TaskDelete None; RecvWait (mkExit 137 None);
        DisableMaintainance "web-1" None; RecvStarted None;
        TaskStart None; TaskWait None]
     = S (count is_TaskWait []).
Proof.
  apply (monitorTask_return_cause healthy "web-1" (runs_until_exit 137) []).
  reflexivity.
Defined.

Lemma monitorTask_loop_waiting (env : Env) (id : string) (sched : schedule) :
  existsb is_SelWait sched = false ->
  (forall h' : history, task_Start env h' = None) ->
  forall (err : option error) (started : started_chan) (h : history),
    (forall e : error, started <> Buffered (Some e)) ->
    fst (monitorTask_loop env id err started sched h) = None.
Proof.
  intros Hsched Hstart. induction sched as [|st sched IH]; intros err started h Hs.
  - reflexivity.
  - cbn [existsb] in Hsched. apply orb_false_elim in Hsched as (Hst & Hsched).
    specialize (IH Hsched). destruct st as [| |s|exit]; [| | |discriminate].
    + rewrite monitorTask_loop_start. destruct started as [|r|].
      * apply IH. rewrite Hstart. discriminate.
      * apply IH, Hs.
      * apply IH. discriminate.
    + rewrite monitorTask_loop_started. destruct started as [|[e|]|].
      * apply IH. discriminate.
      * destruct (Hs e eq_refl).
      * apply IH. discriminate.
      * apply IH. discriminate.
    + rewrite monitorTask_loop_signal. apply IH, Hs.
Qed.

(** X2: as long as the first [task.Wait] and [task.Start] succeed and the
    wait channel delivers nothing, [monitorTask] does not return, whatever
    signals arrive and however their relay ends; the task is not deleted. *)
Theorem monitorTask_waits_for_the_task (env : Env) (id : string)
    (sched : schedule) (h : history) :
  task_Wait env h = None ->
  (forall h' : history, task_Start env h' = None) ->
  existsb is_SelWait sched = false ->
  fst (monitorTask env id sched h) = None
  /\ count is_TaskDelete (snd (monitorTask env id sched h))
     = count is_TaskDelete h.
Proof.
  intros Hwait Hstart Hsched. rewrite monitorTask_run, Hwait. cbn zeta.
  rewrite (monitorTask_loop_waiting env id sched Hsched Hstart None NotSent
             (TaskWait None :: h)) by discriminate.
  split; [reflexivity|]. cbn [snd].
  rewrite (monitorTask_loop_count is_TaskDelete); [reflexivity|].
  intros e He. destruct e; cbn in *; congruence.
Qed.

Lemma monitorTask_waits_for_the_task_witness :
  fst (monitorTask (flaky 100) "web-1" signals_only []) = None
  /\ count is_TaskDelete (snd (monitorTask (flaky 100) "web-1" signals_only []))
     = count is_TaskDelete [].
Proof.
  apply (monitorTask_waits_for_the_task (flaky 100) "web-1" signals_only []).
  - reflexivity.
  - intros h'. reflexivity.
  - reflexivity.
Defined.

(** ** The start hook *)

Lemma systemdExecStartCommand_run (env : Env) (id : string) (sched : schedule)
    (h : history) :
  systemdExecStartCommand env id sched h
  = match client_LoadContainer env h id with
    | Some e => (Return (Some e), LoadContainer id (Some e) :: h)
    | None =>
        let h1 := LoadContainer id None :: h in
        match container_Info env h1 with
        | Some e => (Return (Some e), ContainerInfo (Some e) :: h1)
        | None =>
            let h2 := ContainerInfo None :: h1 in
            match typeurl_UnmarshalAny env h2 with
            | inr e => (Return (Some e), UnmarshalAny (inr e) :: h2)
            | inl AnyOther => (Panic, UnmarshalAny (inl AnyOther) :: h2)
            | inl (AnyContainer c) =>
                let h3 := UnmarshalAny (inl (AnyContainer c)) :: h2 in
                match container_NewTask env h3 with
                | Some e => (Return (Some e), NewTask (Some e) :: h3)
                | None =>
                    let n := setupNetworking env id c (NewTask None :: h3) in
                    match fst n with
                    | Some e =>
                        (Return (Some e),
                         TaskDelete (task_Delete env (snd n)) :: snd n)
                    | None =>
                        let m := monitorTask env id sched (snd n) in
                        (match fst m with
                         | None => Waiting
                         | Some (_, Some e) => Return (Some e)
                         | Some (status, None) => Exit status
                         end,
                         snd m)
                    end
                end
            end
        end
    end.
Proof.
  unfold systemdExecStartCommand, getConfig.
  rewrite bind_run, call_run. cbn [fst snd].
  destruct (client_LoadContainer env h id) as [e|]; [reflexivity|].
  rewrite bind_run, bind_run, call_run. cbn [fst snd].
  destruct (container_Info env (LoadContainer id None :: h)) as [e|];
    [reflexivity|].
  rewrite bind_run, call_run. cbn [fst snd].
  destruct (typeurl_UnmarshalAny env
              (ContainerInfo None :: LoadContainer id None :: h))
    as [[c|]|e]; try reflexivity.
  cbn [ret fst snd]. rewrite bind_run, call_run. cbn [fst snd].
  destruct (container_NewTask env
              (UnmarshalAny (inl (AnyContainer c)) :: ContainerInfo None
                 :: LoadContainer id None :: h)) as [e|]; [reflexivity|].
  rewrite bind_run. cbn zeta.
  destruct (fst (setupNetworking env id c
                   (NewTask None :: UnmarshalAny (inl (AnyContainer c))
                      :: ContainerInfo None :: LoadContainer id None :: h)))
    as [e|].
  - rewrite bind_run, call_run. reflexivity.
  - rewrite bind_run.
    destruct (fst (monitorTask env id sched
                (snd (setupNetworking env id c
                   (NewTask None :: UnmarshalAny (inl (AnyContainer c))
                      :: ContainerInfo None :: LoadContainer id None :: h)))))
      as [[status [e|]]|]; reflexivity.
Qed.

Lemma count_none (p q : event -> bool) (d : history) :
  (forall e : event, q e = true -> p e = false) ->
  Forall (fun e => q e = true) d -> count p d = 0%nat.
Proof.
  intros Hp Hd. induction Hd as [|e d He _ IH]; [reflexivity|].
  unfold count in *. cbn [filter]. rewrite (Hp e He). exact IH.
Qed.

Lemma count_cons (p : event -> bool) (e : event) (h : history) :
  count p (e :: h) = ((if p e then 1 else 0) + count p h)%nat.
Proof. unfold count. cbn [filter]. destruct (p e); reflexivity. Qed.

Lemma registered_events (id ip : string)
    (tried : list (string * Service * option error)) :
  Forall (fun e => registration_event e = true) (registered id ip tried)
  /\ count is_Register (registered id ip tried) = List.length tried
  /\ (count is_LogError (registered id ip tried) <= List.length tried)%nat.
Proof.
  induction tried as [|[[name srv] r] tried (IHf & IHr & IHl)].
  - repeat split; [constructor | apply Nat.le_refl].
  - change (registered id ip ((name, srv, r) :: tried))
      with (match r with
            | Some e =>
                [LogError "register service" e;
                 Register id name ip srv (Some e)]
            | None => [Register id name ip srv None]
            end ++ registered id ip tried).
    destruct r as [e|]; cbn [app List.length]; rewrite !count_cons, IHr;
      repeat split; try (cbn; lia);
      repeat (constructor; [reflexivity|]); exact IHf.
Qed.

Lemma setupNetworking_shape (env : Env) (id : string) (c : Container)
    (h : history) :
  match network_Create env h (Network c) with
  | inr e =>
      setupNetworking env id c h
      = (Some e, NetworkCreate (Network c) (inr e) :: h)
  | inl ip =>
      exists d : history,
        setupNetworking env id c h
        = (None, d ++ NetworkCreate (Network c) (inl ip) :: h)
        /\ Forall (fun e => registration_event e = true) d
        /\ count is_Register d
           = (if String.eqb ip "" then 0 else List.length (Services c))%nat
        /\ (count is_LogError d <= count is_Register d)%nat
  end.
Proof.
  rewrite setupNetworking_run.
  destruct (network_Create env h (Network c)) as [ip|e]; [|reflexivity].
  destruct (String.eqb ip "").
  - exists []. repeat split; [constructor | apply Nat.le_refl].
  - destruct (register_services_shape env id ip (Services c)
                (LogDebug "setup network interface"
                   :: NetworkCreate (Network c) (inl ip) :: h))
      as (tried & Hrun & Hsrvs).
    destruct (registered_events id ip tried) as (Hf & Hr & Hl).
    assert (Hlen : List.length tried = List.length (Services c))
      by (rewrite <- Hsrvs, length_map, length_rev; reflexivity).
    exists (registered id ip tried ++ [LogDebug "setup network interface"]).
    rewrite Hrun. cbn [snd]. rewrite <- app_assoc. repeat split.
    + apply Forall_app. split; [exact Hf | repeat constructor].
    + rewrite count_app, Hr, Hlen. cbn. lia.
    + rewrite !count_app, Hr. cbn. lia.
Qed.


Lemma monitorTask_adds (env : Env) (id : string) (sched : schedule)
    (h : history) :
  exists d : history,
    snd (monitorTask env id sched h) = d ++ h
    /\ count created d = 0%nat
    /\ count attached d = 0%nat
    /\ count is_TaskWait d <> 0%nat
    /\ count is_TaskDelete d
       = match fst (monitorTask env id sched h) with
         | None => 0%nat
         | Some _ => 1%nat
         end.
Proof.
  rewrite monitorTask_run. destruct (task_Wait env h) as [e|].
  - exists [TaskDelete (task_Delete env (TaskWait (Some e) :: h));
            TaskWait (Some e)].
    repeat split. discriminate.
  - cbn zeta.
    destruct (monitorTask_loop_never
                (fun e => created e || attached e || is_TaskDelete e)
                env id sched None NotSent (TaskWait None :: h))
      as (d & Hd & Hobs).
    { intros e He. destruct e as [ | | |[|]|? [|]| | | | | | | | | | | | | | | ];
        cbn in *; congruence. }
    apply never_count in Hobs.
    assert (H0 : count created d = 0%nat /\ count attached d = 0%nat
                 /\ count is_TaskDelete d = 0%nat).
    { clear Hd. induction d as [|e d IH]; [repeat split|].
      rewrite count_cons in Hobs. rewrite !count_cons.
      destruct (created e), (attached e), (is_TaskDelete e); cbn in Hobs;
        try discriminate.
      apply IH, Hobs. }
    destruct H0 as (Hc & Ha & Hdel).
    destruct (fst (monitorTask_loop env id None NotSent sched (TaskWait None :: h))).
    + cbn [fst snd]. rewrite Hd.
      exists (TaskDelete (task_Delete env (d ++ TaskWait None :: h))
                :: d ++ [TaskWait None]).
      cbn [app]. rewrite <- app_assoc, !count_cons, !count_app, Hc, Ha, Hdel.
      cbn. repeat split; lia.
    + cbn [fst snd]. rewrite Hd. exists (d ++ [TaskWait None]).
      rewrite <- app_assoc, !count_app, Hc, Ha, Hdel. cbn.
      repeat split; lia.
Qed.

Lemma setupNetworking_adds (env : Env) (id : string) (c : Container)
    (h : history) :
  exists d : history,
    snd (setupNetworking env id c h) = d ++ h
    /\ count created d = 0%nat
    /\ count is_TaskDelete d = 0%nat
    /\ count is_TaskWait d = 0%nat
    /\ count attached d
       = match fst (setupNetworking env id c h) with
         | None => 1%nat
         | Some _ => 0%nat
         end.
Proof.
  pose proof (setupNetworking_shape env id c h) as Hshape.
  destruct (network_Create env h (Network c)) as [ip|e].
  - destruct Hshape as (d & Hrun & Hd & _). rewrite Hrun. cbn [fst snd].
    exists (d ++ [NetworkCreate (Network c) (inl ip)]).
    rewrite <- app_assoc, !count_app.
    rewrite (count_none created registration_event d),
            (count_none is_TaskDelete registration_event d),
            (count_none is_TaskWait registration_event d),
            (count_none attached registration_event d);
      try exact Hd; try (intros e He; destruct e; cbn in *; congruence).
    repeat split.
  - rewrite Hshape. exists [NetworkCreate (Network c) (inr e)]. repeat split.
Qed.

(** X4: the start hook creates at most one task.  On every path on which
    it ends (an error returned, [os.Exit], a panic) it has deleted the task
    exactly once if it had created one, and has deleted nothing otherwise;
    while it is still in the loop it has deleted nothing.  It calls
    [task.Wait] only after the task was created and the network
    provisioner had answered an address. *)
Theorem start_hook_task_lifecycle (env : Env) (id : string) (sched : schedule)
    (h : history) :
  exists d : history,
    snd (systemdExecStartCommand env id sched h) = d ++ h
    /\ (count created d <= 1)%nat
    /\ count is_TaskDelete d
       = match fst (systemdExecStartCommand env id sched h) with
         | Waiting => 0%nat
         | _ => count created d
         end
    /\ (count is_TaskWait d <> 0%nat ->
        count created d = 1%nat /\ count attached d = 1%nat).
Proof.
  rewrite systemdExecStartCommand_run.
  destruct (client_LoadContainer env h id) as [e|].
  { exists [LoadContainer id (Some e)]. repeat split; cbn; try lia;
      try reflexivity; try (match goal with Hw : _ <> _ |- _ => destruct (Hw eq_refl) end). }
  cbn zeta.
  destruct (container_Info env (LoadContainer id None :: h)) as [e|].
  { exists [ContainerInfo (Some e); LoadContainer id None].
    repeat split; cbn; try lia; try reflexivity; try (match goal with Hw : _ <> _ |- _ => destruct (Hw eq_refl) end). }
  destruct (typeurl_UnmarshalAny env
              (ContainerInfo None :: LoadContainer id None :: h))
    as [[c|]|e].
  2:{ exists [UnmarshalAny (inl AnyOther); ContainerInfo None;
              LoadContainer id None].
      repeat split; cbn; try lia; try reflexivity; try (match goal with Hw : _ <> _ |- _ => destruct (Hw eq_refl) end). }
  2:{ exists [UnmarshalAny (inr e); ContainerInfo None; LoadContainer id None].
      repeat split; cbn; try lia; try reflexivity; try (match goal with Hw : _ <> _ |- _ => destruct (Hw eq_refl) end). }
  destruct (container_NewTask env
              (UnmarshalAny (inl (AnyContainer c)) :: ContainerInfo None
                 :: LoadContainer id None :: h)) as [e|].
  { exists [NewTask (Some e); UnmarshalAny (inl (AnyContainer c));
            ContainerInfo None; LoadContainer id None].
    repeat split; cbn; try lia; try reflexivity; try (match goal with Hw : _ <> _ |- _ => destruct (Hw eq_refl) end). }
  set (h4 := NewTask None :: UnmarshalAny (inl (AnyContainer c))
               :: ContainerInfo None :: LoadContainer id None :: h).
  destruct (setupNetworking_adds env id c h4) as (dn & Hdn & Hnc & Hnd & Hnw & Hna).
  destruct (fst (setupNetworking env id c h4)) as [e|].
  - cbn [fst snd]. rewrite Hdn.
    exists (TaskDelete (task_Delete env (dn ++ h4))
              :: dn ++ [NewTask None; UnmarshalAny (inl (AnyContainer c));
                        ContainerInfo None; LoadContainer id None]).
    cbn [app]. rewrite <- app_assoc. split; [reflexivity|].
    rewrite !count_cons, !count_app, Hnc, Hnd, Hnw. cbn.
    repeat split; try lia; try reflexivity; try (match goal with Hw : _ <> _ |- _ => destruct (Hw eq_refl) end).
  - cbn [fst snd]. rewrite Hdn.
    destruct (monitorTask_adds env id sched (dn ++ h4))
      as (dm & Hdm & Hmc & Hma & Hmw & Hmd).
    rewrite Hdm.
    exists (dm ++ dn ++ [NewTask None; UnmarshalAny (inl (AnyContainer c));
                         ContainerInfo None; LoadContainer id None]).
    rewrite <- !app_assoc. split; [reflexivity|].
    rewrite !count_app, Hmc, Hnc, Hnd, Hmd, Hma, Hna.
    destruct (fst (monitorTask env id sched (dn ++ h4)))
      as [[status [e|]]|]; cbn; repeat split; lia.
Qed.

Lemma monitorTask_nil_status (env : Env) (id : string) (sched : schedule)
    (h : history) (status : Z) :
  fst (monitorTask env id sched h) = Some (status, None) ->
  exists exit : ExitStatus,
    In (SelWait exit) sched /\ status = reported_status exit.
Proof.
  rewrite monitorTask_run. destruct (task_Wait env h) as [e|]; [discriminate|].
  cbn zeta.
  destruct (monitorTask_loop_nil env id sched NotSent (TaskWait None :: h))
    as (_ & Hr).
  destruct (fst (monitorTask_loop env id None NotSent sched (TaskWait None :: h)))
    as [res|]; [|discriminate].
  cbn [fst]. intros Hres. injection Hres as ->.
  destruct (Hr (status, None) eq_refl) as (_ & Hs). exact (Hs eq_refl).
Qed.

(** X5: the action of the start hook never returns nil: it returns an
    error, or it ends the process with [os.Exit].  The status it passes to
    [os.Exit] is that of a wait event of the schedule: the exit code of the
    task when the event carries no error, [-1] when it does. *)
Theorem start_hook_exit_status (env : Env) (id : string) (sched : schedule)
    (h : history) :
  match fst (systemdExecStartCommand env id sched h) with
  | Return None => False
  | Exit status =>
      exists exit : ExitStatus,
        In (SelWait exit) sched /\ status = reported_status exit
  | _ => True
  end.
Proof.
  rewrite systemdExecStartCommand_run.
  destruct (client_LoadContainer env h id); [exact I|]. cbn zeta.
  destruct (container_Info env (LoadContainer id None :: h)); [exact I|].
  destruct (typeurl_UnmarshalAny env
              (ContainerInfo None :: LoadContainer id None :: h))
    as [[c|]|e]; try exact I.
  destruct (container_NewTask env
              (UnmarshalAny (inl (AnyContainer c)) :: ContainerInfo None
                 :: LoadContainer id None :: h)); [exact I|].
  match goal with
  | |- context [setupNetworking env id c ?h4] =>
      destruct (fst (setupNetworking env id c h4)); [exact I|];
      pose proof (monitorTask_nil_status env id sched
                    (snd (setupNetworking env id c h4))) as Hm;
      destruct (fst (monitorTask env id sched
                       (snd (setupNetworking env id c h4))))
        as [[status [e|]]|]; try exact I
  end.
  cbn [fst]. apply Hm. reflexivity.
Qed.

(** ** Signals are relayed as they are *)

Lemma observe_relay (s : Z) (d : history) :
  Forall (fun e => relay_event s e = true) d ->
  observe relay_observer (Some s) d = Some (Some s).
Proof.
  induction 1 as [|e d He _ IH]; cbn [observe]; [reflexivity|].
  rewrite IH. destruct e; cbn in *; try congruence. rewrite He. reflexivity.
Qed.

Lemma observe_silent (cur : option Z) (d : history) :
  Forall (fun e => silent e = true) d ->
  observe relay_observer cur d = Some cur.
Proof.
  induction 1 as [|e d He _ IH]; cbn [observe]; [reflexivity|].
  rewrite IH. destruct e; cbn in *; congruence.
Qed.

Lemma failed_attempts_silent (es : list error) :
  Forall (fun e => silent e = true) (failed_attempts es).
Proof.
  induction es as [|e es IH]; cbn; [constructor|].
  repeat constructor. exact IH.
Qed.

Lemma silent_relay_event (s : Z) (d : history) :
  Forall (fun e => silent e = true) d ->
  Forall (fun e => relay_event s e = true) d.
Proof.
  apply Forall_impl. intros e He. destruct e; cbn in *; congruence.
Qed.

Lemma reconnect_silent (env : Env) (h : history) :
  exists d : history,
    snd (reconnect env h) = d ++ h /\ Forall (fun e => silent e = true) d.
Proof.
  destruct (reconnect_loop_shape env 19 None h) as (r & fails & Hrun & _).
  fold (reconnect env) in Hrun. rewrite Hrun. cbn [snd].
  exists (ClientReconnect r :: Sleep 100 :: failed_attempts fails).
  split; [reflexivity|]. repeat constructor. apply failed_attempts_silent.
Qed.

Lemma relay_logged_events (env : Env) (s : Z) (h : history) :
  exists d : history,
    logged "signal task" (trySendSignal env s h) = d ++ h
    /\ Forall (fun e => relay_event s e = true) d.
Proof.
  destruct (trySendSignal_loop_shape env s 5 h) as (rounds & x & Hrun & _).
  fold (trySendSignal env s) in Hrun. rewrite Hrun. unfold logged. cbn [fst snd].
  assert (Hrounds : Forall (fun e => relay_event s e = true)
                      (flat_map (retried_round s) rounds)).
  { clear Hrun. induction rounds as [|round rounds IH]; cbn [flat_map];
      [constructor|].
    apply Forall_app. split; [|exact IH].
    unfold retried_round. repeat (constructor; [reflexivity|]).
    apply Forall_app. split.
    - apply silent_relay_event, failed_attempts_silent.
    - constructor; [apply Z.eqb_refl | constructor]. }
  assert (Hend : Forall (fun e => relay_event s e = true) (end_events s x)).
  { destruct x as [|e|e fails e'|]; cbn [end_events].
    - constructor; [apply Z.eqb_refl | constructor].
    - constructor; [apply Z.eqb_refl | constructor].
    - repeat (constructor; [reflexivity|]). apply Forall_app. split.
      + apply silent_relay_event, failed_attempts_silent.
      + constructor; [apply Z.eqb_refl | constructor].
    - constructor. }
  assert (Hq : Forall (fun e => relay_event s e = true)
                 (end_events s x ++ flat_map (retried_round s) rounds))
    by (apply Forall_app; split; assumption).
  destruct (end_result x) as [e|].
  - exists (LogError "signal task" e
            :: end_events s x ++ flat_map (retried_round s) rounds).
    split; [cbn [app]; rewrite <- app_assoc; reflexivity|].
    constructor; [reflexivity | exact Hq].
  - exists (end_events s x ++ flat_map (retried_round s) rounds).
    split; [rewrite <- app_assoc; reflexivity | exact Hq].
Qed.

Lemma monitorTask_loop_relays (env : Env) (id : string) (sched : schedule) :
  forall (err : option error) (started : started_chan) (h : history)
         (cur : option Z),
    accepted relay_observer cur h
      (snd (monitorTask_loop env id err started sched h)).
Proof.
  induction sched as [|st sched IH]; intros err started h cur.
  - apply accepted_refl.
  - destruct st as [| |s|exit].
    + rewrite monitorTask_loop_start. destruct started as [|r|]; try apply IH.
      apply (accepted_step _ _ cur cur [TaskStart (task_Start env h)]);
        [reflexivity | apply IH].
    + rewrite monitorTask_loop_started. destruct started as [|[e|]|];
        try apply IH.
      * cbn [snd]. apply (accepted_last _ _ cur [RecvStarted (Some e)]).
        discriminate.
      * unfold logged. cbn [fst snd].
        destruct (register_DisableMaintainance env (RecvStarted None :: h) id)
          as [e|].
        -- apply (accepted_step _ _ cur None
                    [LogError "disable service maintenance" e;
                     DisableMaintainance id (Some e); RecvStarted None]);
             [reflexivity | apply IH].
        -- apply (accepted_step _ _ cur None
                    [DisableMaintainance id None; RecvStarted None]);
             [reflexivity | apply IH].
    + rewrite monitorTask_loop_signal.
      destruct (relay_logged_events env s (RecvSignal s :: h)) as (d & Hd & Hq).
      rewrite Hd.
      apply (accepted_step _ _ cur (Some s) (d ++ [RecvSignal s]));
        [|rewrite <- app_assoc; apply IH].
      rewrite observe_app. cbn [observe relay_observer].
      apply observe_relay, Hq.
    + rewrite monitorTask_loop_wait.
      destruct (Error exit) as [e|].
      * destruct (negb (isUnavailable err)).
        -- cbn [snd]. apply (accepted_last _ _ cur [RecvWait exit]).
           discriminate.
        -- cbn zeta.
           destruct (reconnect_silent env (RecvWait exit :: h)) as (d & Hd & Hq).
           assert (Hobs : observe relay_observer cur (d ++ [RecvWait exit])
                          = Some None).
           { rewrite observe_app. cbn [observe relay_observer].
             apply observe_silent, Hq. }
           destruct (fst (reconnect env (RecvWait exit :: h))) as [e'|].
           ++ cbn [snd]. rewrite Hd.
              replace (d ++ RecvWait exit :: h) with ((d ++ [RecvWait exit]) ++ h)
                by (rewrite <- app_assoc; reflexivity).
              apply accepted_last. rewrite Hobs. discriminate.
           ++ rewrite Hd.
              destruct (task_Wait env (d ++ RecvWait exit :: h)) as [e'|].
              ** cbn [snd].
                 replace (TaskWait (Some e') :: d ++ RecvWait exit :: h)
                   with ((TaskWait (Some e') :: d ++ [RecvWait exit]) ++ h)
                   by (cbn [app]; rewrite <- app_assoc; reflexivity).
                 apply accepted_last. cbn [observe]. rewrite Hobs. discriminate.
              ** apply (accepted_step _ _ cur None
                          (TaskWait None :: d ++ [RecvWait exit])).
                 --- cbn [observe]. rewrite Hobs. reflexivity.
                 --- cbn [app]. rewrite <- app_assoc. apply IH.
      * cbn [snd]. apply (accepted_last _ _ cur [RecvWait exit]). discriminate.
Qed.

(** X6: every call of [task.Kill] made by [monitorTask] carries the signal
    that the loop has received last, with no other reception in between:
    the loop sends the task no signal of its own and changes none. *)
Theorem monitorTask_relays_signals_unchanged (env : Env) (id : string)
    (sched : schedule) (h : history) :
  exists d : history,
    snd (monitorTask env id sched h) = d ++ h
    /\ observe relay_observer None d <> None.
Proof.
  rewrite monitorTask_run. destruct (task_Wait env h) as [e|].
  - exists [TaskDelete (task_Delete env (TaskWait (Some e) :: h));
            TaskWait (Some e)].
    split; [reflexivity | discriminate].
  - cbn zeta.
    destruct (monitorTask_loop_relays env id sched None NotSent
                (TaskWait None :: h) None) as (d & Hd & Hobs).
    assert (Hobs' : observe relay_observer None (d ++ [TaskWait None]) <> None)
      by (rewrite observe_app; exact Hobs).
    destruct (fst (monitorTask_loop env id None NotSent sched (TaskWait None :: h))).
    + cbn [snd]. rewrite Hd.
      exists (TaskDelete (task_Delete env (d ++ TaskWait None :: h))
                :: d ++ [TaskWait None]).
      split; [cbn [app]; rewrite <- app_assoc; reflexivity|].
      apply observe_last; [reflexivity | exact Hobs'].
    + cbn [snd]. exists (d ++ [TaskWait None]).
      split; [rewrite Hd, <- app_assoc; reflexivity | exact Hobs'].
Qed.

(** ** How long a relay can take *)

Lemma slept_app (d1 d2 : history) : slept (d1 ++ d2) = slept d1 + slept d2.
Proof.
  induction d1 as [|e d1 IH]; [reflexivity|].
  destruct e; cbn [app slept]; rewrite IH; lia.
Qed.

Lemma failed_attempts_delay (es : list error) :
  slept (failed_attempts es) = 100 * Z.of_nat (List.length es)
  /\ count is_ClientReconnect (failed_attempts es) = List.length es
  /\ count is_TaskKill (failed_attempts es) = 0%nat.
Proof.
  induction es as [|e es (IHs & IHc & IHk)]; [repeat split|].
  change (failed_attempts (e :: es))
    with (ClientReconnect (Some e) :: Sleep 100 :: failed_attempts es).
  rewrite !count_cons. cbn [slept List.length is_ClientReconnect is_TaskKill].
  rewrite IHs, IHc, IHk. repeat split; lia.
Qed.

Lemma retried_rounds_delay (s : Z) (rounds : list (error * list error)) :
  Forall round_ok rounds ->
  slept (flat_map (retried_round s) rounds)
  = 100 * Z.of_nat (count is_ClientReconnect (flat_map (retried_round s) rounds))
  /\ (count is_ClientReconnect (flat_map (retried_round s) rounds)
      <= 20 * List.length rounds)%nat.
Proof.
  induction 1 as [|[e fails] rounds (_ & Hlen) _ (IHs & IHc)]; [split; cbn; lia|].
  cbn [flat_map]. rewrite slept_app, count_app. unfold retried_round at 1 3 5.
  cbn [fst snd] in *.
  destruct (failed_attempts_delay fails) as (Hs & Hc & _).
  rewrite !count_cons, count_app. cbn [slept is_ClientReconnect].
  rewrite slept_app, Hs, Hc, IHs. cbn [slept count filter is_ClientReconnect
                                         List.length app].
  split; lia.
Qed.

Lemma end_events_delay (s : Z) (x : relay_end) :
  end_ok x ->
  slept (end_events s x)
  = 100 * Z.of_nat (count is_ClientReconnect (end_events s x))
  /\ (count is_ClientReconnect (end_events s x) <= 20 * end_sends x)%nat.
Proof.
  destruct x as [|e|e fails e'|]; cbn [end_events end_sends end_ok];
    try (intros _; split; cbn; lia).
  intros (_ & Hlen). destruct (failed_attempts_delay fails) as (Hs & Hc & _).
  rewrite !count_cons, count_app. cbn [slept is_ClientReconnect].
  rewrite slept_app, Hs, Hc. cbn [slept count filter is_ClientReconnect
                                    List.length app].
  split; lia.
Qed.

(** X7: one relay of a signal makes at most 100 calls of
    [client.Reconnect], at most 20 for each send, each after a sleep of
    100 ms, and so sleeps 10 seconds at most. *)
Theorem trySendSignal_bounded_delay (env : Env) (s : Z) (h : history) :
  exists d : history,
    snd (trySendSignal env s h) = d ++ h
    /\ slept d = 100 * Z.of_nat (count is_ClientReconnect d)
    /\ (count is_ClientReconnect d <= 20 * count is_TaskKill d)%nat
    /\ (count is_ClientReconnect d <= 100)%nat
    /\ slept d <= 10000.
Proof.
  destruct (trySendSignal_loop_shape env s 5 h)
    as (rounds & x & Hrun & Hbound & _ & Hrounds & Hx).
  fold (trySendSignal env s) in Hrun. rewrite Hrun. cbn [snd].
  exists (end_events s x ++ flat_map (retried_round s) rounds).
  rewrite <- app_assoc. split; [reflexivity|].
  destruct (retried_rounds_delay s rounds Hrounds) as (Hrs & Hrc).
  destruct (end_events_delay s x Hx) as (Hes & Hec).
  rewrite slept_app, !count_app, Hrs, Hes, count_end_events, count_rounds.
  repeat split; lia.
Qed.

(** ** The post hook *)

(** X8: the post hook calls [EnableMaintainance] exactly once, as its
    last call, whatever [cleanupPreviousTask] has returned; it returns the
    error of the cleanup when there is one, in which case the answer of
    [EnableMaintainance] is dropped, and that answer otherwise. *)
Theorem post_hook_rearms_the_gate (env : Env) (id : string) (h : history) :
  exists d : history,
    snd (cleanupPreviousTask env id h) = d ++ h
    /\ count is_EnableMaintainance d = 0%nat
    /\ systemdExecStartPostCommand env id h
       = (Return
            match fst (cleanupPreviousTask env id h) with
            | Some e => Some e
            | None => register_EnableMaintainance env (d ++ h) id "task exited"
            end,
          EnableMaintainance id "task exited"
            (register_EnableMaintainance env (d ++ h) id "task exited")
            :: d ++ h).
Proof.
  assert (Hd : exists d : history,
             snd (cleanupPreviousTask env id h) = d ++ h
             /\ count is_EnableMaintainance d = 0%nat).
  { rewrite cleanupPreviousTask_run.
    destruct (client_LoadContainer env h id) as [e|].
    - exists [LoadContainer id (Some e)]. split; reflexivity.
    - destruct (container_Task env (LoadContainer id None :: h)) as [e|].
      + exists [TaskLookup (Some e); LoadContainer id None]. split; reflexivity.
      + exists [TaskDelete
                  (task_Delete env (TaskLookup None :: LoadContainer id None :: h));
                TaskLookup None; LoadContainer id None].
        split; reflexivity. }
  destruct Hd as (d & Hd & Hc). exists d. repeat split; try assumption.
  unfold systemdExecStartPostCommand.
  rewrite bind_run, bind_run, call_run, Hd. cbn [fst snd].
  destruct (fst (cleanupPreviousTask env id h)); reflexivity.
Qed.

(** ** The pre-start hook *)

Lemma append_assoc (s1 s2 s3 : string) :
  ((s1 ++ s2) ++ s3 = s1 ++ s2 ++ s3)%string.
Proof. induction s1 as [|c s1 IH]; cbn; [reflexivity | rewrite IH; reflexivity]. Qed.

Lemma append_nil_r (s : string) : (s ++ "" = s)%string.
Proof. induction s as [|c s IH]; cbn; [reflexivity | rewrite IH; reflexivity]. Qed.

Lemma written_app (d log : host_history) :
  written (d ++ log) = (written log ++ written d)%string.
Proof.
  induction d as [|e d IH]; cbn [app written].
  - rewrite append_nil_r. reflexivity.
  - destruct e as [| s [e|] | |]; try exact IH.
    rewrite IH. apply append_assoc.
Qed.

Lemma write_nameservers_shape (host : Host) (nss : list string) :
  forall log : host_history,
  exists (d : host_history) (k : nat),
    write_nameservers host nss log
    = (fst (write_nameservers host nss log), d ++ log)
    /\ written d = resolv_conf (firstn k nss)
    /\ forallb is_WriteString d = true
    /\ match fst (write_nameservers host nss log) with
       | None => k = List.length nss /\ List.length d = k
       | Some _ => (k < List.length nss)%nat /\ List.length d = S k
       end.
Proof.
  induction nss as [|ns nss IH]; intros log.
  - exists [], 0%nat. repeat split.
  - cbn [write_nameservers].
    destruct (file_WriteString host log (resolv_line ns)) as [e|].
    + exists [WriteString (resolv_line ns) (Some e)], 0%nat. cbn.
      repeat split. lia.
    + destruct (IH (WriteString (resolv_line ns) None :: log))
        as (d & k & Hrun & Hw & Hd & Hk).
      exists (d ++ [WriteString (resolv_line ns) None]), (S k).
      rewrite <- app_assoc. cbn [app]. split; [exact Hrun|].
      split; [rewrite written_app, Hw; reflexivity|].
      split; [rewrite forallb_app, Hd; reflexivity|].
      rewrite length_app. cbn [List.length].
      destruct (fst (write_nameservers host nss
                       (WriteString (resolv_line ns) None :: log)));
        destruct Hk as (Hk1 & Hk2); split; lia.
Qed.


(** A full disk: the first line is written, the second write fails, the
    file is closed. *)
Example setupResolvConf_disk_full :
  setupResolvConf full_host "/var/lib/boss" ["8.8.8.8"; "8.8.4.4"] []
  = (Some disk_full,
     [FileClose;
      WriteString (resolv_line "8.8.4.4") (Some disk_full);
      WriteString (resolv_line "8.8.8.8") None;
      OsCreate "/var/lib/boss" "resolv.conf" None]).
Proof. reflexivity. Qed.

Lemma setupResolvConf_done (host : Host) (Root : string) (nss : list string)
    (log : host_history) :
  fst (setupResolvConf host Root nss log) = None ->
  exists d : host_history,
    snd (setupResolvConf host Root nss log)
    = FileClose :: d ++ OsCreate Root "resolv.conf" None :: log
    /\ written d = resolv_conf nss.
Proof.
  unfold setupResolvConf.
  destruct (os_Create host log Root "resolv.conf") as [e|]; [discriminate|].
  cbn zeta. cbn [fst snd].
  destruct (write_nameservers_shape host nss
              (OsCreate Root "resolv.conf" None :: log))
    as (d & k & Hrun & Hw & _ & Hk).
  intros Hnil. rewrite Hnil in Hk. destruct Hk as (-> & _).
  exists d. rewrite Hrun. cbn [snd]. rewrite firstn_all in Hw.
  split; [reflexivity | exact Hw].
Qed.

(** X10: the pre-start hook leaves the runtime alone until the host is
    ready.  When [setupResolvConf] returns an error the hook returns that
    error and calls neither the apparmor loader nor the runtime.
    Otherwise the file holds one line for every name server and is closed;
    when the profile cannot be loaded the hook returns that error and makes
    no call to the runtime; and when it is loaded the result of the hook
    and its calls to the runtime are those of [cleanupPreviousTask]. *)
Theorem pre_hook_host_before_runtime (host : Host) (Root : string)
    (nss : list string) (env : Env) (id : string) (log : host_history)
    (h : history) :
  match fst (setupResolvConf host Root nss log) with
  | Some e =>
      systemdExecStartPreCommand host Root nss env id (log, h)
      = (Return (Some e), (snd (setupResolvConf host Root nss log), h))
  | None =>
      exists d : host_history,
        snd (setupResolvConf host Root nss log)
        = FileClose :: d ++ OsCreate Root "resolv.conf" None :: log
        /\ written d = resolv_conf nss
        /\ match apparmor_WithDefaultProfile host
                 (FileClose :: d ++ OsCreate Root "resolv.conf" None :: log)
                 "boss" with
           | Some e =>
               systemdExecStartPreCommand host Root nss env id (log, h)
               = (Return (Some e),
                  (WithDefaultProfile "boss" (Some e) :: FileClose
                     :: d ++ OsCreate Root "resolv.conf" None :: log,
                   h))
           | None =>
               systemdExecStartPreCommand host Root nss env id (log, h)
               = (Return (fst (cleanupPreviousTask env id h)),
                  (WithDefaultProfile "boss" None :: FileClose
                     :: d ++ OsCreate Root "resolv.conf" None :: log,
                   snd (cleanupPreviousTask env id h)))
           end
  end.
Proof.
  unfold systemdExecStartPreCommand. cbn [fst snd]. cbn zeta.
  pose proof (setupResolvConf_done host Root nss log) as Hdone.
  destruct (fst (setupResolvConf host Root nss log)) as [e|]; [reflexivity|].
  destruct (Hdone eq_refl) as (d & Hd & Hw). exists d.
  split; [exact Hd|]. split; [exact Hw|].
  unfold setupApparmor. cbn [fst snd]. rewrite Hd.
  destruct (apparmor_WithDefaultProfile host
              (FileClose :: d ++ OsCreate Root "resolv.conf" None :: log)
              "boss"); reflexivity.
Qed.

(** The disk is full: the hook returns the error of the write and the
    runtime is not called. *)
Example pre_hook_disk_full :
  systemdExecStartPreCommand full_host "/var/lib/boss" ["8.8.8.8"; "8.8.4.4"]
    healthy "web-1" ([], [])
  = (Return (Some disk_full),
     ([FileClose;
       WriteString (resolv_line "8.8.4.4") (Some disk_full);
       WriteString (resolv_line "8.8.8.8") None;
       OsCreate "/var/lib/boss" "resolv.conf" None],
      [])).
Proof. reflexivity. Qed.

(** A sound host: the hook goes on to the cleanup, here of a container
    that has no task. *)
Example pre_hook_sound_host :
  systemdExecStartPreCommand sound_host "/var/lib/boss" ["8.8.8.8"]
    healthy "web-1" ([], [])
  = (Return None,
     ([WithDefaultProfile "boss" None; FileClose;
       WriteString (resolv_line "8.8.8.8") None;
       OsCreate "/var/lib/boss" "resolv.conf" None],
      [TaskLookup (Some task_gone); LoadContainer "web-1" None])).
Proof. reflexivity. Qed.

(** ** config.RegisterService *)

Lemma append_not_self (a b : string) (c : Ascii.ascii) :
  (a ++ String c b)%string <> a.
Proof.
  induction a as [|x a IH]; cbn; [discriminate|].
  intros H. injection H as H. exact (IH H).
Qed.

(** X11: [Remove] does not undo [Run].  [Run] registers the service under
    the ID of the service followed by a dash and the ID of the
    configuration, [Remove] deregisters the ID of the service alone and
    returns nil whatever happens: after a [Run] that has succeeded and a
    [Remove], the registration is still there. *)
Theorem RegisterService_Remove_does_not_undo_Run (consul : Consul)
    (s : RegisterService) (cfg : Config) (log : consul_history) :
  RegisterService_Config s = Some cfg ->
  fst (RegisterService_Run consul s log) = Return None ->
  fst (RegisterService_Remove consul s (snd (RegisterService_Run consul s log)))
  = Return None
  /\ In (RegisterService_ID s ++ "-" ++ Config_ID cfg)%string
       (services
          (snd (RegisterService_Remove consul s
                  (snd (RegisterService_Run consul s log))))).
Proof.
  intros Hcfg. unfold RegisterService_Run. rewrite Hcfg.
  destruct (util_GetIP consul log (Config_Iface cfg)) as [ip|e];
    [|discriminate].
  cbn zeta.
  destruct (api_NewClient consul (GetIP (Config_Iface cfg) (inl ip) :: log))
    as [e|]; [discriminate|].
  cbn [fst snd].
  match goal with
  | |- Return ?r = Return None -> _ => destruct r as [e|] eqn:Hreg
  end; [discriminate|].
  intros _. unfold RegisterService_Remove.
  match goal with
  | |- context [api_NewClient consul ?l] => destruct (api_NewClient consul l)
  end; cbn [fst snd services].
  - split; [reflexivity | left; reflexivity].
  - split; [reflexivity|].
    match goal with
    | |- context [agent_ServiceDeregister consul ?l ?i] =>
        destruct (agent_ServiceDeregister consul l i)
    end; cbn [services].
    + left. reflexivity.
    + apply in_in_remove; [apply append_not_self | left; reflexivity].
Qed.

Lemma RegisterService_Remove_does_not_undo_Run_witness :
  fst (RegisterService_Remove sound_consul web_service
         (snd (RegisterService_Run sound_consul web_service [])))
  = Return None
  /\ In ("web" ++ "-" ++ "node-1")%string
       (services
          (snd (RegisterService_Remove sound_consul web_service
                  (snd (RegisterService_Run sound_consul web_service []))))).
Proof.
  apply (RegisterService_Remove_does_not_undo_Run sound_consul web_service
           (mkConfig "node-1" "eth0") []).
  - reflexivity.
  - reflexivity.
Defined.

(** ** What the start hook never does *)

Lemma start_hook_count (p : event -> bool) (env : Env) (id : string)
    (sched : schedule) (h : history) :
  (forall e : event, start_hook_event e = true -> p e = false) ->
  count p (snd (systemdExecStartCommand env id sched h)) = count p h.
Proof.
  intros Hp.
  assert (Hcons : forall (e : event) (h0 : history),
             start_hook_event e = true -> count p (e :: h0) = count p h0).
  { intros e h0 He. rewrite count_cons, (Hp e He). reflexivity. }
  assert (Hnet : forall (c : Container) (h0 : history),
             count p (snd (setupNetworking env id c h0)) = count p h0).
  { intros c h0. pose proof (setupNetworking_shape env id c h0) as Hshape.
    destruct (network_Create env h0 (Network c)) as [ip|e].
    - destruct Hshape as (d & Hrun & Hd & _). rewrite Hrun. cbn [snd].
      rewrite count_app, (count_none p registration_event d), Hcons;
        [reflexivity | reflexivity | | exact Hd].
      intros e He. apply Hp. destruct e; cbn in *; try congruence;
        rewrite He; apply orb_true_r.
    - rewrite Hshape. cbn [snd]. apply Hcons. reflexivity. }
  assert (Hmon : forall h0 : history,
             count p (snd (monitorTask env id sched h0)) = count p h0).
  { intros h0. rewrite monitorTask_run.
    assert (Hloop : forall e : event, loop_event e = true -> p e = false).
    { intros e He. apply Hp. destruct e; cbn in *; try congruence;
        rewrite He; reflexivity. }
    destruct (task_Wait env h0) as [e|].
    - cbn [snd]. rewrite !Hcons; reflexivity.
    - cbn zeta.
      pose proof (monitorTask_loop_count p env id sched None NotSent
                    (TaskWait None :: h0) Hloop) as Hc.
      destruct (fst (monitorTask_loop env id None NotSent sched
                       (TaskWait None :: h0))); cbn [snd].
      + rewrite Hcons, Hc, Hcons; reflexivity.
      + rewrite Hc, Hcons; reflexivity. }
  rewrite systemdExecStartCommand_run.
  destruct (client_LoadContainer env h id) as [e|];
    [cbn [snd]; apply Hcons; reflexivity|].
  cbn zeta.
  destruct (container_Info env (LoadContainer id None :: h)) as [e|];
    [cbn [snd]; rewrite !Hcons; reflexivity|].
  destruct (typeurl_UnmarshalAny env
              (ContainerInfo None :: LoadContainer id None :: h))
    as [[c|]|e]; try (cbn [snd]; rewrite !Hcons; reflexivity).
  destruct (container_NewTask env
              (UnmarshalAny (inl (AnyContainer c)) :: ContainerInfo None
                 :: LoadContainer id None :: h)) as [e|];
    [cbn [snd]; rewrite !Hcons; reflexivity|].
  match goal with
  | |- context [setupNetworking env id c ?h4] =>
      destruct (fst (setupNetworking env id c h4)); cbn [snd]
  end.
  - rewrite Hcons, Hnet, !Hcons; reflexivity.
  - rewrite Hmon, Hnet, !Hcons; reflexivity.
Qed.

(** X12: the start hook never sets the service back to maintenance and
    never looks for a task left over by an earlier run: it makes no call of
    [EnableMaintainance] and none of [container.Task], not even after the
    task has exited. *)
Theorem start_hook_leaves_cleanup_to_the_other_hooks (env : Env) (id : string)
    (sched : schedule) (h : history) :
  count is_EnableMaintainance (snd (systemdExecStartCommand env id sched h))
  = count is_EnableMaintainance h
  /\ count is_TaskLookup (snd (systemdExecStartCommand env id sched h))
     = count is_TaskLookup h.
Proof.
  split; apply start_hook_count; intros e He; destruct e; cbn in *; congruence.
Qed.

(** * The loop, its relays and its teardown *)

Lemma monitorTask_loop_signals (env : Env) (id : string) (ss : list Z) :
  forall (err : option error) (started : started_chan) (rest : schedule)
         (h : history),
    monitorTask_loop env id err started (map SelSignal ss ++ rest) h
    = monitorTask_loop env id err started rest (relayed env ss h).
Proof.
  induction ss as [|s ss IH]; intros err started rest h; [reflexivity|].
  cbn [map app relayed]. rewrite monitorTask_loop_signal. apply IH.
Qed.

Lemma monitorTask_loop_exit (env : Env) (id : string) (err : option error)
    (started : started_chan) (code : Z) (rest : schedule) (h : history) :
  monitorTask_loop env id err started (SelWait (mkExit code None) :: rest) h
  = (Some (code, None), RecvWait (mkExit code None) :: h).
Proof. rewrite monitorTask_loop_wait. reflexivity. Qed.


(** The connection is down for good: the relay of the signal gives up and
    is logged, and the loop still returns the exit code of the task. *)
Example monitorTask_loop_survives_a_failed_relay :
  monitorTask_loop (flaky 100) "web-1" None Drained
    [SelSignal 15; SelWait (mkExit 137 None)] []
  = (Some (137, None),
     RecvWait (mkExit 137 None)
       :: LogError "signal task" conn_lost
       :: snd (trySendSignal (flaky 100) 15 [RecvSignal 15]))
  /\ count is_TaskKill (snd (trySendSignal (flaky 100) 15 [RecvSignal 15]))
     = 1%nat
  /\ count is_ClientReconnect (snd (trySendSignal (flaky 100) 15 [RecvSignal 15]))
     = 20%nat.
Proof. repeat split. Qed.

(** ** Secondary errors and the exit status *)

(** C7, as the code has it.  A failure to register a service is logged
    and [setupNetworking] goes on: once the provisioner has answered an
    address, every service is tried, in order, and nil is returned.  A
    failure of [DisableMaintainance] is logged and the loop of
    [monitorTask] goes on: it still returns the exit code that the wait
    channel delivers.  So, when the container loads, its task is created,
    waited on and started, and the provisioner answers an address, the
    start hook exits with the exit code of the task whatever the register
    answers.  But an error of the network provisioner is returned by the
    start hook, after it has deleted the task it had created; and, when the
    cleanup has succeeded, the post hook returns whatever
    [EnableMaintainance] answers. *)
Theorem secondary_errors (env : Env) (id : string) (h : history) :
  (forall (c : Container) (ip : string),
     network_Create env h (Network c) = inl ip ->
     String.eqb ip "" = false ->
     exists tried : list (string * Service * option error),
       setupNetworking env id c h
       = (None,
          registered id ip tried
            ++ LogDebug "setup network interface"
            :: NetworkCreate (Network c) (inl ip) :: h)
       /\ map fst (rev tried) = Services c)
  /\ (forall (err : option error) (sched : schedule),
        monitorTask_loop env id err (Buffered None) (SelStarted :: sched) h
        = monitorTask_loop env id err Drained sched
            (logged "disable service maintenance"
               (register_DisableMaintainance env (RecvStarted None :: h) id,
                DisableMaintainance id
                  (register_DisableMaintainance env (RecvStarted None :: h) id)
                  :: RecvStarted None :: h)))
  /\ (forall (err : option error) (code : Z) (rest : schedule),
        monitorTask_loop env id err (Buffered None)
          (SelStarted :: SelWait (mkExit code None) :: rest) h
        = (Some (code, None),
           RecvWait (mkExit code None)
             :: logged "disable service maintenance"
                  (register_DisableMaintainance env (RecvStarted None :: h) id,
                   DisableMaintainance id
                     (register_DisableMaintainance env (RecvStarted None :: h)
                        id)
                     :: RecvStarted None :: h)))
  /\ (forall (c : Container) (ip : string) (ss : list Z) (code : Z)
             (rest : schedule),
        (forall h' : history, client_LoadContainer env h' id = None) ->
        (forall h' : history, container_Info env h' = None) ->
        (forall h' : history, typeurl_UnmarshalAny env h' = inl (AnyContainer c)) ->
        (forall h' : history, container_NewTask env h' = None) ->
        (forall h' : history, network_Create env h' (Network c) = inl ip) ->
        (forall h' : history, task_Wait env h' = None) ->
        (forall h' : history, task_Start env h' = None) ->
        fst (systemdExecStartCommand env id
               (RunStart :: SelStarted
                  :: map SelSignal ss ++ SelWait (mkExit code None) :: rest) h)
        = Exit code)
  /\ (forall (c : Container) (e : error) (sched : schedule),
        (forall h' : history, client_LoadContainer env h' id = None) ->
        (forall h' : history, container_Info env h' = None) ->
        (forall h' : history, typeurl_UnmarshalAny env h' = inl (AnyContainer c)) ->
        (forall h' : history, container_NewTask env h' = None) ->
        (forall h' : history, network_Create env h' (Network c) = inr e) ->
        exists r : option error,
          systemdExecStartCommand env id sched h
          = (Return (Some e),
             TaskDelete r :: NetworkCreate (Network c) (inr e) :: NewTask None
               :: UnmarshalAny (inl (AnyContainer c)) :: ContainerInfo None
               :: LoadContainer id None :: h))
  /\ (fst (cleanupPreviousTask env id h) = None ->
      fst (systemdExecStartPostCommand env id h)
      = Return (register_EnableMaintainance env
                  (snd (cleanupPreviousTask env id h)) id "task exited")).
Proof.
  repeat split.
  - intros c ip Hip Hne. rewrite setupNetworking_run, Hip, Hne.
    destruct (register_services_shape env id ip (Services c)
                (LogDebug "setup network interface"
                   :: NetworkCreate (Network c) (inl ip) :: h))
      as (tried & Hrun & Hsrvs).
    exists tried. rewrite Hrun. split; [reflexivity | exact Hsrvs].
  - intros err sched. apply monitorTask_loop_started.
  - intros err code rest.
    rewrite monitorTask_loop_started. apply monitorTask_loop_exit.
  - intros c ip ss code rest Hload Hinfo Hany Hnew Hnet Hwait Hstart.
    rewrite systemdExecStartCommand_run, Hload. cbn zeta.
    rewrite Hinfo, Hany, Hnew.
    assert (Hnil : forall h0 : history,
               fst (setupNetworking env id c h0) = None).
    { intros h0. rewrite setupNetworking_run, Hnet.
      destruct (String.eqb ip ""); reflexivity. }
    rewrite Hnil. cbn [fst].
    rewrite monitorTask_run, Hwait. cbn zeta.
    rewrite monitorTask_loop_start, Hstart, monitorTask_loop_started.
    rewrite monitorTask_loop_signals, monitorTask_loop_exit. reflexivity.
  - intros c e sched Hload Hinfo Hany Hnew Hnet.
    exists (task_Delete env
              (NetworkCreate (Network c) (inr e) :: NewTask None
                 :: UnmarshalAny (inl (AnyContainer c)) :: ContainerInfo None
                 :: LoadContainer id None :: h)).
    unfold systemdExecStartCommand, getConfig.
    rewrite bind_run, call_run, Hload. cbn [fst snd].
    rewrite bind_run, bind_run, call_run, Hinfo. cbn [fst snd].
    rewrite bind_run, call_run, Hany. cbn [ret fst snd].
    rewrite bind_run, call_run, Hnew. cbn [fst snd].
    rewrite bind_run, setupNetworking_run, Hnet. cbn [fst snd].
    rewrite bind_run, call_run. reflexivity.
  - intros Hclean. unfold systemdExecStartPostCommand.
    rewrite bind_run, Hclean, bind_run, call_run. reflexivity.
Qed.

(** ** Teardown on every exit *)

(** With its variable [err] nil, the loop returns on the first exit cause
    that it receives, and on nothing else. *)
Lemma monitorTask_loop_exits (env : Env) (id : string) (sched : schedule) :
  forall (started : started_chan) (h : history),
    count exit_cause (snd (monitorTask_loop env id None started sched h))
    = (match fst (monitorTask_loop env id None started sched h) with
       | Some _ => 1
       | None => 0
       end + count exit_cause h)%nat.
Proof.
  induction sched as [|st sched IH]; intros started h; [reflexivity|].
  destruct st as [| |s|exit].
  - rewrite monitorTask_loop_start. destruct started as [|r|]; rewrite IH;
      reflexivity.
  - rewrite monitorTask_loop_started. destruct started as [|[e|]|];
      try (rewrite IH; reflexivity); [reflexivity|].
    rewrite IH. f_equal. unfold logged. cbn [fst snd].
    destruct (register_DisableMaintainance env (RecvStarted None :: h) id);
      reflexivity.
  - rewrite monitorTask_loop_signal.
    destruct (relay_logged_quiet env s (RecvSignal s :: h)) as (d & Hd & Hq).
    rewrite Hd, IH. f_equal.
    rewrite count_app, (count_quiet exit_cause d); [reflexivity| |exact Hq].
    intros e He. destruct e; cbn in *; congruence.
  - rewrite monitorTask_loop_wait. cbn [isUnavailable negb].
    destruct (Error exit); reflexivity.
Qed.

Lemma monitorTask_loop_returns (env : Env) (id : string) (sched : schedule) :
  existsb is_SelWait sched = true ->
  forall (started : started_chan) (h : history),
    fst (monitorTask_loop env id None started sched h) <> None.
Proof.
  induction sched as [|st sched IH]; intros Hsched started h; [discriminate|].
  destruct st as [| |s|exit]; cbn [existsb is_SelWait orb] in Hsched.
  - rewrite monitorTask_loop_start. destruct started; apply IH, Hsched.
  - rewrite monitorTask_loop_started. destruct started as [|[e|]|];
      try (apply IH, Hsched). discriminate.
  - rewrite monitorTask_loop_signal. apply IH, Hsched.
  - rewrite monitorTask_loop_wait. cbn [isUnavailable negb].
    destruct (Error exit); discriminate.
Qed.

(** C9: a run of [monitorTask] has returned exactly when it has met an
    exit cause (a first [task.Wait] that failed, an error received from
    [started], a value received from the wait channel), and it then holds
    exactly one [task.Delete], its newest entry; a run that has not
    returned holds none.  Whatever the teardown answers (nil, a not-found
    error for a task that is gone already, any other error) the same status
    and error are returned.  The run does return when the first
    [task.Wait] fails, when the start fails, and whenever the wait channel
    delivers; and the loop itself, from any state and on any path, the one
    of a reconnection that gives up included, calls no [task.Delete]: the
    deferred one is the only one. *)
Theorem monitorTask_teardown_once (env : Env) (id : string) (sched : schedule)
    (h : history) :
  (exists d : history,
     snd (monitorTask env id sched h) = d ++ h
     /\ match fst (monitorTask env id sched h) with
        | Some res =>
            count exit_cause d = 1%nat
            /\ exists d' : history,
                 d = TaskDelete (task_Delete env (d' ++ h)) :: d'
                 /\ count is_TaskDelete d' = 0%nat
                 /\ forall answer : history -> option error,
                      monitorTask (with_task_Delete env answer) id sched h
                      = (Some res, TaskDelete (answer (d' ++ h)) :: d' ++ h)
        | None => count exit_cause d = 0%nat /\ count is_TaskDelete d = 0%nat
        end)
  /\ (forall e : error,
        task_Wait env h = Some e ->
        fst (monitorTask env id sched h) = Some (-1, Some e))
  /\ (forall (e : error) (rest : schedule),
        task_Wait env h = None ->
        task_Start env (TaskWait None :: h) = Some e ->
        fst (monitorTask env id (RunStart :: SelStarted :: rest) h)
        = Some (-1, Some e))
  /\ (existsb is_SelWait sched = true ->
      fst (monitorTask env id sched h) <> None)
  /\ (forall (err : option error) (started : started_chan) (h0 : history),
        count is_TaskDelete (snd (monitorTask_loop env id err started sched h0))
        = count is_TaskDelete h0).
Proof.
  split; [|split; [|split; [|split]]].
  - rewrite monitorTask_run.
    destruct (task_Wait env h) as [e|] eqn:Hwait.
    + exists [TaskDelete (task_Delete env (TaskWait (Some e) :: h));
              TaskWait (Some e)].
      split; [reflexivity|]. cbn [fst]. split; [reflexivity|].
      exists [TaskWait (Some e)]. repeat split.
      intros answer. rewrite monitorTask_run.
      cbn [task_Wait task_Delete with_task_Delete app]. rewrite Hwait.
      reflexivity.
    + cbn zeta.
      destruct (monitorTask_loop_no_delete env id sched None NotSent
                  (TaskWait None :: h)) as (d & Hd & Hobs).
      pose proof (monitorTask_loop_exits env id sched NotSent (TaskWait None :: h))
        as Hexit.
      rewrite Hd, count_app in Hexit. cbn [count filter exit_cause List.length]
        in Hexit.
      destruct (fst (monitorTask_loop env id None NotSent sched
                       (TaskWait None :: h))) as [res|] eqn:Hres.
      * cbn [fst snd]. rewrite Hd.
        exists (TaskDelete (task_Delete env (d ++ TaskWait None :: h))
                  :: d ++ [TaskWait None]).
        split; [cbn [app]; rewrite <- app_assoc; reflexivity|].
        split.
        -- rewrite count_cons, count_app. cbn. lia.
        -- exists (d ++ [TaskWait None]). rewrite <- app_assoc. cbn [app].
           repeat split.
           ++ rewrite count_app, (no_delete_count d Hobs). reflexivity.
           ++ intros answer. rewrite monitorTask_run.
              cbn [task_Wait task_Delete with_task_Delete]. rewrite Hwait.
              cbn zeta. rewrite monitorTask_loop_with_task_Delete, Hres, Hd.
              reflexivity.
      * cbn [fst snd]. rewrite Hd. exists (d ++ [TaskWait None]).
        split; [rewrite <- app_assoc; reflexivity|].
        rewrite !count_app, (no_delete_count d Hobs). cbn. split; lia.
  - intros e Hwait. rewrite monitorTask_run, Hwait. reflexivity.
  - intros e rest Hwait Hstart. rewrite monitorTask_run, Hwait. cbn zeta.
    rewrite monitorTask_loop_start, Hstart, monitorTask_loop_started.
    reflexivity.
  - intros Hsched. rewrite monitorTask_run.
    destruct (task_Wait env h); [discriminate|]. cbn zeta.
    pose proof (monitorTask_loop_returns env id sched Hsched NotSent
                  (TaskWait None :: h)) as Hret.
    destruct (fst (monitorTask_loop env id None NotSent sched
                     (TaskWait None :: h))); [discriminate | congruence].
  - intros err started h0. apply monitorTask_loop_count.
    intros e He. destruct e; cbn in *; congruence.
Qed.

(** The start fails: the run returns that error after its teardown. *)
Example monitorTask_teardown_after_failed_start :
  monitorTask start_refused "web-1" (runs_until_exit 0) []
  = (Some (-1, Some refused),
     [TaskDelete None; RecvStarted (Some refused); TaskStart (Some refused);
      TaskWait None]).
Proof. reflexivity. Qed.

(** The connection is lost for good and the wait channel delivers
    unavailable errors: the run ends at the first of them, with one
    teardown and without a reconnection. *)
Example monitorTask_teardown_after_lost_connection :
  monitorTask (flaky 100) "web-1"
    (RunStart :: SelStarted
       :: repeat (SelWait (mkExit 255 (Some conn_lost))) 25) []
  = (Some (-1, None),
     [TaskDelete None; RecvWait (mkExit 255 (Some conn_lost));
      DisableMaintainance "web-1" None; RecvStarted None;
      TaskStart None; TaskWait None]).
Proof. reflexivity. Qed.

(** In a loop whose variable [err] held an unavailable error, a
    reconnection that gives up would end the loop with its error, and
    without a [task.Delete] of the loop's own. *)
Example monitorTask_loop_reconnection_gives_up :
  fst (monitorTask_loop (flaky 100) "web-1" (Some conn_lost) Drained
         [SelWait (mkExit 255 (Some conn_lost))] [])
  = Some (-1, Some conn_lost)
  /\ count is_ClientReconnect
       (snd (monitorTask_loop (flaky 100) "web-1" (Some conn_lost) Drained
               [SelWait (mkExit 255 (Some conn_lost))] []))
     = 20%nat
  /\ count is_TaskDelete
       (snd (monitorTask_loop (flaky 100) "web-1" (Some conn_lost) Drained
               [SelWait (mkExit 255 (Some conn_lost))] []))
     = 0%nat.
Proof. repeat split. Qed.

(** ** Wait subscriptions *)

